(** * puremed: the clinic intake and chat-assistant application

    A shallow embedding of [groq_medical_app/app.py]: the two SQLite tables,
    the [login], [chat] and [api_send_message] routes, the assembly of the
    conversation context and the normalisation of the completion reply,
    followed by the properties of these routes.

    Conventions of the embedding.
    - A request body, and the body of the completion response, is a parsed
      JSON document ([json]); JSON numbers are the integers. Floating point
      numbers are not modelled: no property below speaks of a body that
      carries one (a NaN, which is true in Python and stored as NULL, among
      them).
    - Text is a [string] whose characters are code points below 256.
    - A Python expression that may raise is a computation in [py]; an
      exception that leaves a route is answered by Flask with status 500.
    - [CURRENT_TIMESTAMP] is a number of seconds; the server clock never
      runs backwards, so each request states how much time has passed.
    - [ORDER BY created_at] returns rows of equal timestamp in rowid order. *)

From Stdlib Require Import ZArith List String Ascii Bool Lia QArith.
From Stdlib Require Import Sorting.Sorted Sorting.Permutation DecimalString.
Import ListNotations.
Local Open Scope string_scope.
Local Open Scope Z_scope.
#[local] Set Warnings "-register-all".

(** ** Python values and the dynamic operations the routes use *)

Module Py.

(** A decoded JSON document, as [resp.json()] and [request.get_json()] build
    it. The members of an object are listed in any order; of two members of
    one name the first is the one the dict holds. *)
Inductive json : Type :=
| JNull
| JBool (b : bool)
| JInt (z : Z)
| JStr (s : string)
| JArr (items : list json)
| JObj (members : list (string * json)).

Inductive exn_class : Type :=
| AttributeError | TypeError | IndexError | KeyError | OverflowError
| ProgrammingError      (* sqlite3: a parameter of unsupported type *)
| RequestException.     (* requests: transport, timeout, HTTP status, decoding *)

(** An exception with the text [str(e)] gives. *)
Record exn : Type := mkExn { exn_class_of : exn_class; str : string }.

Inductive py (A : Type) : Type :=
| Return (a : A)
| Raise (e : exn).
Arguments Return {A} a.
Arguments Raise {A} e.

Definition bind {A B} (c : py A) (k : A -> py B) : py B :=
  match c with
  | Return a => k a
  | Raise e => Raise e
  end.

(** [type(v).__name__] *)
Definition type_name (v : json) : string :=
  match v with
  | JNull => "NoneType"
  | JBool _ => "bool"
  | JInt _ => "int"
  | JStr _ => "str"
  | JArr _ => "list"
  | JObj _ => "dict"
  end.

(** Truth value testing: [None], [False], zero and the empty string, list
    and dict are false. *)
Definition truthy (v : json) : bool :=
  match v with
  | JNull => false
  | JBool b => b
  | JInt z => negb (z =? 0)
  | JStr s => negb (String.eqb s "")
  | JArr items => match items with [] => false | _ => true end
  | JObj members => match members with [] => false | _ => true end
  end.

(** [a or b] *)
Definition py_or (a b : json) : json := if truthy a then a else b.

Fixpoint lookup (k : string) (members : list (string * json)) : option json :=
  match members with
  | [] => None
  | (k', v) :: rest => if String.eqb k k' then Some v else lookup k rest
  end.

Definition no_attribute (v : json) (attr : string) : exn :=
  mkExn AttributeError
        ("'" ++ type_name v ++ "' object has no attribute '" ++ attr ++ "'").

(** [o.get(k, default)] *)
Definition get (o : json) (k : string) (default : json) : py json :=
  match o with
  | JObj members =>
      Return (match lookup k members with Some v => v | None => default end)
  | _ => Raise (no_attribute o "get")
  end.

(** [o[0]] *)
Definition index0 (o : json) : py json :=
  match o with
  | JArr (x :: _) => Return x
  | JArr [] => Raise (mkExn IndexError "list index out of range")
  | JStr (String c _) => Return (JStr (String c ""))
  | JStr EmptyString => Raise (mkExn IndexError "string index out of range")
  | JObj _ => Raise (mkExn KeyError "0")
  | _ => Raise (mkExn TypeError
                      ("'" ++ type_name o ++ "' object is not subscriptable"))
  end.

(** [str.isspace] on one character: tab to carriage return, the four
    separators 28 to 31, space, next line (133) and no-break space (160). *)
Definition isspace (c : ascii) : bool :=
  let n := nat_of_ascii c in
  ((9 <=? n) && (n <=? 13) || (28 <=? n) && (n <=? 31) || (n =? 32)
   || (n =? 133) || (n =? 160))%nat.

Fixpoint lstrip (s : string) : string :=
  match s with
  | EmptyString => EmptyString
  | String c rest => if isspace c then lstrip rest else s
  end.

Fixpoint rstrip (s : string) : string :=
  match s with
  | EmptyString => EmptyString
  | String c rest =>
      match rstrip rest with
      | EmptyString => if isspace c then EmptyString else String c EmptyString
      | kept => String c kept
      end
  end.

(** [s.strip()] on a string *)
Definition strip (s : string) : string := rstrip (lstrip s).

(** [v.strip()] on any value: only a string has the method. *)
Definition strip_method (v : json) : py string :=
  match v with
  | JStr s => Return (strip s)
  | _ => Raise (no_attribute v "strip")
  end.

(** [str(z)] for an integer *)
Definition decimal (z : Z) : string := NilZero.string_of_int (Z.to_int z).

End Py.

Notation "x <- c ;; k" := (Py.bind c (fun x => k))
  (at level 61, c at next level, right associativity).

(** ** The SQLite engine as the application uses it *)

Module Sqlite.
Import Py.

(** What the [sqlite3] module passes to the engine for a Python parameter. *)
Inductive bound : Type :=
| BNull
| BInt (z : Z)
| BText (s : string).

(** A stored value of a column of INTEGER affinity. [Real] carries the bits
    of a double; it only arises from text that reads as a number which is not
    an integer. *)
Inductive sqlval : Type :=
| Null
| Integer (z : Z)
| Real (bits : Z)
| Text (s : string).

Definition int64 (z : Z) : bool := (- 2 ^ 63 <=? z) && (z <? 2 ^ 63).

(** Binding the parameter at position [pos] of a statement: [None], [int]
    (and [bool], its subclass) and [str] are supported, a [list] or a [dict]
    is not. *)
Definition bind_param (pos : nat) (v : json) : py bound :=
  match v with
  | JNull => Return BNull
  | JBool b => Return (BInt (if b then 1 else 0))
  | JInt z =>
      if int64 z then Return (BInt z)
      else Raise (mkExn OverflowError
                        "Python int too large to convert to SQLite INTEGER")
  | JStr s => Return (BText s)
  | JArr _ | JObj _ =>
      Raise (mkExn ProgrammingError
                   ("Error binding parameter " ++ decimal (Z.of_nat pos)
                    ++ ": type '" ++ type_name v ++ "' is not supported"))
  end.

(** [a = b] in a WHERE clause, on values of one column: NULL equals nothing. *)
Definition sql_eqb (a b : sqlval) : bool :=
  match a, b with
  | Integer x, Integer y => x =? y
  | Real x, Real y => x =? y
  | Text x, Text y => String.eqb x y
  | _, _ => false
  end.

(** A value stored in a column of TEXT affinity: an integer becomes its
    decimal text. *)
Definition text_affinity (v : bound) : option string :=
  match v with
  | BNull => None
  | BInt z => Some (decimal z)
  | BText s => Some s
  end.

End Sqlite.

(** ** The two tables *)

Module Patient.
Record row : Type := mk {
  id : Z;
  name : string;
  age : Sqlite.sqlval;
  gender : option string;
  phone : option string;
  created_at : nat
}.
End Patient.

Module Chat.
Record row : Type := mk {
  id : Z;
  patient_id : Sqlite.sqlval;
  role : string;
  content : option string;
  created_at : nat
}.
End Chat.

(** The database file: both tables in rowid order, the AUTOINCREMENT counter
    of each ([sqlite_sequence]) and the server clock at the last statement. *)
Record database : Type := mkDb {
  patients : list Patient.row;
  chats : list Chat.row;
  patients_seq : Z;
  chats_seq : Z;
  clock : nat
}.

(** [init_db]: both tables created empty. *)
Definition init_db (started : nat) : database :=
  mkDb [] [] 0 0 started.

(** [ORDER BY created_at ASC]: rows of equal timestamp keep their order. *)
Fixpoint insert_by_created_at (r : Chat.row) (sorted : list Chat.row)
  : list Chat.row :=
  match sorted with
  | [] => [r]
  | x :: rest =>
      if (Chat.created_at r <=? Chat.created_at x)%nat then r :: sorted
      else x :: insert_by_created_at r rest
  end.

Fixpoint order_by_created_at (rows : list Chat.row) : list Chat.row :=
  match rows with
  | [] => []
  | r :: rest => insert_by_created_at r (order_by_created_at rest)
  end.

(** [FROM chats WHERE patient_id = ?] *)
Definition where_patient_id (key : Sqlite.sqlval) (rows : list Chat.row)
  : list Chat.row :=
  filter (fun r => Sqlite.sql_eqb (Chat.patient_id r) key) rows.

(** [FROM patients WHERE id = ?], [fetchone()] *)
Definition fetch_patient (d : database) (patient_id : Z)
  : option Patient.row :=
  find (fun p => Patient.id p =? patient_id) (patients d).

(** ** Configuration *)

(** The two environment variables read at start-up. *)
Record environ : Type := mkEnviron {
  env_GROQ_API_KEY : option string;
  env_OPENAI_API_KEY : option string
}.

(** [os.getenv("GROQ_API_KEY") or os.getenv("OPENAI_API_KEY")] *)
Definition GROQ_API_KEY (e : environ) : option string :=
  match env_GROQ_API_KEY e with
  | Some k => if String.eqb k "" then env_OPENAI_API_KEY e else Some k
  | None => env_OPENAI_API_KEY e
  end.

Definition GROQ_ENDPOINT : string :=
  "https://api.groq.com/openai/v1/chat/completions".

Definition GROQ_MODEL : string := "llama3-70b-8192".

(** ** Messages and the completion endpoint *)

Record message : Type := mkMessage {
  msg_role : string;
  msg_content : option string
}.

(** One [requests.post] to the endpoint: the bearer header, the JSON payload
    and the timeout in seconds. *)
Record completion_request : Type := mkRequest {
  url : string;
  authorization : string;
  model : string;
  messages : list message;
  max_tokens : Z;
  temperature : Q;
  timeout : Z
}.

(** The endpoint as the route sees it: [requests.post], [raise_for_status]
    and [resp.json()] together either raise or give the decoded body. *)
Definition endpoint : Type := completion_request -> Py.py Py.json.

Definition system_msg : message :=
  mkMessage "system"
    (Some ("You are a helpful medical assistant. Provide general information and safe suggestions. "
           ++ "Do NOT give definitive diagnoses. If symptoms sound urgent or dangerous, advise the user to seek immediate professional care.")).

(** The loop over [rows]: a stored role other than [user] reads [assistant]. *)
Definition context_message (r : Chat.row) : message :=
  mkMessage (if String.eqb (Chat.role r) "user" then "user" else "assistant")
            (Chat.content r).

(** The message list of one request, from the rows the SELECT returned. *)
Definition assemble (rows : list Chat.row) (user_message : string)
  : list message :=
  (system_msg :: map context_message rows)
    ++ [mkMessage "user" (Some user_message)].

Definition key_missing : string :=
  "AI key not configured on server. Ask admin to set GROQ_API_KEY env variable.".

Definition empty_response : string :=
  "Sorry, the AI returned an empty response.".

Definition service_error (e : Py.exn) : string :=
  "Sorry, AI service error: " ++ Py.str e.

(** [j.get("choices", [{}])[0]] *)
Definition first_choice (j : Py.json) : Py.py Py.json :=
  choices <- Py.get j "choices" (Py.JArr [Py.JObj []]) ;;
  Py.index0 choices.

(** The body of the [try] after [resp.json()]. *)
Definition extract_reply (j : Py.json) : Py.py Py.json :=
  choice <- first_choice j ;;
  msg <- Py.get choice "message" (Py.JObj []) ;;
  assistant_text <- Py.get msg "content" (Py.JStr "") ;;
  if Py.truthy assistant_text then Py.Return assistant_text
  else
    choice' <- first_choice j ;;
    text <- Py.get choice' "text" (Py.JStr "") ;;
    Py.Return (Py.py_or text (Py.JStr empty_response)).

(** Lines 135 to 146: the request posted for a message list. *)
Definition build_request (key : string) (msgs : list message)
  : completion_request :=
  mkRequest GROQ_ENDPOINT ("Bearer " ++ key) GROQ_MODEL msgs 400 (2 # 10) 30.

(** The completion client, lines 132 to 155: the reply text and the requests
    it posted. *)
Definition complete (e : environ) (post : endpoint) (msgs : list message)
  : Py.json * list completion_request :=
  match GROQ_API_KEY e with
  | None => (Py.JStr key_missing, [])
  | Some key =>
      if String.eqb key "" then (Py.JStr key_missing, [])
      else
        let req := build_request key msgs in
        (match j <- post req ;; extract_reply j with
         | Py.Return assistant_text => assistant_text
         | Py.Raise ex => Py.JStr (service_error ex)
         end, [req])
  end.

(** ** Requests and responses *)

Inductive http_method : Type := GET | POST.

(** [request.form]: the fields submitted, [get] takes the first of a name. *)
Definition form : Type := list (string * string).

Fixpoint form_get (f : form) (k default : string) : string :=
  match f with
  | [] => default
  | (k', v) :: rest => if String.eqb k k' then v else form_get rest k default
  end.

(** [s or None] *)
Definition or_None (s : string) : Sqlite.bound :=
  if String.eqb s "" then Sqlite.BNull else Sqlite.BText s.

Inductive login_response : Type :=
| LoginPage (error : option string)
| RedirectDashboard (patient_id : Z).

Record history_entry : Type := mkEntry {
  h_role : string;
  h_content : option string;
  h_created_at : nat
}.

Inductive page_response : Type :=
| NotFound
| DashboardPage (patient : Patient.row)
| ChatPage (patient : Patient.row) (history : list history_entry).

Inductive api_response : Type :=
| Reply (assistant_text : Py.json)       (* 200, the JSON object with "reply" *)
| InvalidInput                           (* 400, "invalid input" *)
| InternalServerError (e : Py.exn).      (* 500, an exception left the route *)

Record outcome : Type := mkOutcome {
  stored : database;
  response : api_response;
  posted : list completion_request
}.

(** Lines 101 to 103: the two fields of the body. *)
Definition request_fields (body : Py.json) : Py.py (Py.json * string) :=
  let data := Py.py_or body (Py.JObj []) in
  patient_id <- Py.get data "patient_id" Py.JNull ;;
  msg <- Py.get data "message" Py.JNull ;;
  user_message <- Py.strip_method (Py.py_or msg (Py.JStr "")) ;;
  Py.Return (patient_id, user_message).

(** Line 104: [not patient_id or not user_message] *)
Definition invalid_input (patient_id : Py.json) (user_message : string)
  : bool :=
  negb (Py.truthy patient_id) || negb (Py.truthy (Py.JStr user_message)).

Section Routes.

(** What the engine makes of a text stored in, or compared with, a column of
    INTEGER affinity ([patients.age], [chats.patient_id]): the integer or
    real it reads as, or the text itself. *)
Variable integer_affinity : string -> Sqlite.sqlval.

Definition integer_column (v : Sqlite.bound) : Sqlite.sqlval :=
  match v with
  | Sqlite.BNull => Sqlite.Null
  | Sqlite.BInt z => Sqlite.Integer z
  | Sqlite.BText s => integer_affinity s
  end.

(** [INSERT INTO patients (name, age, gender, phone)], committed. *)
Definition insert_patient (d : database) (elapsed : nat)
  (name : string) (age gender phone : Sqlite.bound) : database :=
  let now := (clock d + elapsed)%nat in
  let rowid := patients_seq d + 1 in
  mkDb (patients d
          ++ [Patient.mk rowid name (integer_column age)
                (Sqlite.text_affinity gender) (Sqlite.text_affinity phone) now])
       (chats d) rowid (chats_seq d) now.

(** [INSERT INTO chats (patient_id, role, content)], committed. No
    [PRAGMA foreign_keys] is issued, so the reference is not checked. *)
Definition insert_chat (d : database) (elapsed : nat)
  (patient_id : Sqlite.bound) (role : string) (content : Sqlite.bound)
  : database :=
  let now := (clock d + elapsed)%nat in
  let rowid := chats_seq d + 1 in
  mkDb (patients d)
       (chats d
          ++ [Chat.mk rowid (integer_column patient_id) role
                (Sqlite.text_affinity content) now])
       (patients_seq d) rowid now.

(** The route [/]. *)
Definition login (d : database) (elapsed : nat) (method : http_method)
  (f : form) : database * login_response :=
  match method with
  | GET => (d, LoginPage None)
  | POST =>
      let name := Py.strip (form_get f "name" "") in
      let age := or_None (Py.strip (form_get f "age" "")) in
      let gender := or_None (Py.strip (form_get f "gender" "")) in
      let phone := or_None (Py.strip (form_get f "phone" "")) in
      if String.eqb name "" then (d, LoginPage (Some "Name is required"))
      else
        let d' := insert_patient d elapsed name age gender phone in
        (d', RedirectDashboard (patients_seq d'))
  end.

(** The view [dashboard] for an id that the engine can bind (below 2^63);
    [dashboard_route] is the route for any id of the URL. *)
Definition dashboard (d : database) (patient_id : Z) : page_response :=
  match fetch_patient d patient_id with
  | None => NotFound
  | Some patient => DashboardPage patient
  end.

(** One entry of [history]. *)
Definition history_row (r : Chat.row) : history_entry :=
  mkEntry (Chat.role r) (Chat.content r) (Chat.created_at r).

(** The view [chat] for an id that the engine can bind (below 2^63);
    [chat_route] is the route for any id of the URL. *)
Definition chat (d : database) (patient_id : Z) : page_response :=
  match fetch_patient d patient_id with
  | None => NotFound
  | Some patient =>
      let rows :=
        order_by_created_at
          (where_patient_id (Sqlite.Integer patient_id) (chats d)) in
      ChatPage patient (map history_row rows)
  end.

(** A view as the URL reaches it. *)
Inductive route_response : Type :=
| Page (page : page_response)
| ServerError (e : Py.exn).              (* 500, an exception left the view *)

(** The route [/dashboard/<int:patient_id>]: the converter gives any
    natural number, and line 84 binds it before anything is read. *)
Definition dashboard_route (d : database) (patient_id : N) : route_response :=
  match Sqlite.bind_param 1 (Py.JInt (Z.of_N patient_id)) with
  | Py.Raise ex => ServerError ex
  | Py.Return _ => Page (dashboard d (Z.of_N patient_id))
  end.

(** The route [/chat/<int:patient_id>]: line 92 binds the id first. *)
Definition chat_route (d : database) (patient_id : N) : route_response :=
  match Sqlite.bind_param 1 (Py.JInt (Z.of_N patient_id)) with
  | Py.Raise ex => ServerError ex
  | Py.Return _ => Page (chat d (Z.of_N patient_id))
  end.

(** Line 114: the rows the context is built from. *)
Definition context_rows (d : database) (patient_id : Sqlite.bound)
  : list Chat.row :=
  firstn 40
    (order_by_created_at
       (where_patient_id (integer_column patient_id) (chats d))).

(** What lines 101 to 129 leave behind: the request refused, or the user
    turn saved and the message list built. *)
Inductive received : Type :=
| Refused
| Accepted (patient_id : Sqlite.bound) (user_message : string)
           (saved : database) (msgs : list message).

(** Lines 101 to 129 of [api_send_message]. [t_user] is the time since the
    last statement when the user turn is saved. *)
Definition receive (d : database) (body : Py.json) (t_user : nat)
  : Py.py received :=
  fields <- request_fields body ;;
  let (patient_id, user_message) := fields in
  if invalid_input patient_id user_message then Py.Return Refused
  else
    pid <- Sqlite.bind_param 1 patient_id ;;
    let d1 := insert_chat d t_user pid "user" (Sqlite.BText user_message) in
    let rows := context_rows d1 pid in
    Py.Return (Accepted pid user_message d1 (assemble rows user_message)).

(** The route [/api/send_message]. [t_reply] is the time from saving the
    user turn to saving the reply. *)
Definition api_send_message (e : environ) (post : endpoint) (d : database)
  (body : Py.json) (t_user t_reply : nat) : outcome :=
  match receive d body t_user with
  | Py.Raise ex => mkOutcome d (InternalServerError ex) []
  | Py.Return Refused => mkOutcome d InvalidInput []
  | Py.Return (Accepted pid user_message d1 msgs) =>
      let (assistant_text, sent) := complete e post msgs in
      match Sqlite.bind_param 2 assistant_text with
      | Py.Raise ex => mkOutcome d1 (InternalServerError ex) sent
      | Py.Return reply =>
          mkOutcome (insert_chat d1 t_reply pid "assistant" reply)
                    (Reply assistant_text) sent
      end
  end.

(** ** Sequences of operations *)

Inductive operation : Type :=
| CreatePatient (elapsed : nat) (f : form)
| SendMessage (e : environ) (post : endpoint) (body : Py.json)
              (t_user t_reply : nat).

Definition step (d : database) (op : operation) : database :=
  match op with
  | CreatePatient elapsed f => fst (login d elapsed POST f)
  | SendMessage e post body t_user t_reply =>
      stored (api_send_message e post d body t_user t_reply)
  end.

Definition run (d : database) (ops : list operation) : database :=
  fold_left step ops d.

(** ** Notions the properties are stated with *)

(** [not GROQ_API_KEY] is false. *)
Definition key_configured (e : environ) : bool :=
  match GROQ_API_KEY e with
  | Some key => negb (String.eqb key "")
  | None => false
  end.

(** A valid request: the body passes the checks of lines 101 to 105 and its
    patient identifier can be stored. It yields the identifier as bound and
    the trimmed message. *)
Definition accepted (body : Py.json) : option (Sqlite.bound * string) :=
  match request_fields body with
  | Py.Return (patient_id, user_message) =>
      if invalid_input patient_id user_message then None
      else
        match Sqlite.bind_param 1 patient_id with
        | Py.Return pid => Some (pid, user_message)
        | Py.Raise _ => None
        end
  | Py.Raise _ => None
  end.

(** The stored turns of patient number [p], in rowid order. *)
Definition turns (p : Z) (d : database) : list Chat.row :=
  where_patient_id (Sqlite.Integer p) (chats d).

Definition role_content (r : Chat.row) : string * option string :=
  (Chat.role r, Chat.content r).

Definition earlier (a b : Chat.row) : Prop :=
  (Chat.created_at a <= Chat.created_at b)%nat.

(** Rows in rowid order carry timestamps that never decrease, none of them
    ahead of the clock. Every database the routes produce is such. *)
Definition chronological (d : database) : Prop :=
  StronglySorted earlier (chats d)
  /\ Forall (fun r => (Chat.created_at r <= clock d)%nat) (chats d).

(** The text a TEXT column keeps of a reply. *)
Definition reply_text (v : Py.json) : option string :=
  match v with
  | Py.JStr s => Some s
  | Py.JInt z => Some (Py.decimal z)
  | Py.JBool b => Some (Py.decimal (if b then 1 else 0))
  | _ => None
  end.

(** [conversation p d exchanges d']: from [d], one valid request after the
    other for patient [p], each answered with a reply, leads to [d'];
    [exchanges] lists the trimmed message and the reply of each. *)
Inductive conversation (p : Z)
  : database -> list (string * Py.json) -> database -> Prop :=
| conversation_over d : conversation p d [] d
| conversation_send d e post body t_user t_reply pid m reply rest d' :
    accepted body = Some (pid, m) ->
    integer_column pid = Sqlite.Integer p ->
    response (api_send_message e post d body t_user t_reply) = Reply reply ->
    conversation p (stored (api_send_message e post d body t_user t_reply))
                 rest d' ->
    conversation p d ((m, reply) :: rest) d'.

(** The two turns an exchange leaves. *)
Definition exchange_turns (x : string * Py.json)
  : list (string * option string) :=
  [("user", Some (fst x)); ("assistant", reply_text (snd x))].

(** The foreign key of [chats]: every turn names the [id] of a patient. *)
Definition references_patient (d : database) (r : Chat.row) : bool :=
  existsb (fun p => Sqlite.sql_eqb (Chat.patient_id r)
                                   (Sqlite.Integer (Patient.id p)))
          (patients d).

Definition foreign_key_holds (d : database) : bool :=
  forallb (references_patient d) (chats d).

(** [completion_fails e post msgs advisory]: the completion path fails on
    [msgs], for want of a credential or by an exception of the call or of
    reading its body, and [advisory] is the text it then produces. *)
Inductive completion_fails (e : environ) (post : endpoint)
  (msgs : list message) : string -> Prop :=
| fails_without_key :
    key_configured e = false ->
    completion_fails e post msgs key_missing
| fails_raising key ex :
    GROQ_API_KEY e = Some key -> key <> "" ->
    (j <- post (build_request key msgs) ;; extract_reply j) = Py.Raise ex ->
    completion_fails e post msgs (service_error ex).

(** The number of messages of a list that carry the given text. *)
Definition occurrences (text : string) (msgs : list message) : nat :=
  List.length (filter (fun m => match msg_content m with
                                | Some c => String.eqb c text
                                | None => false
                                end) msgs).

(** ** A clinic to evaluate the routes on *)

Definition jane : form := [("name", "Jane Doe")].

(** A fresh database with one patient, number 1. *)
Definition clinic : database := fst (login (init_db 0) 0 POST jane).

Definition send_body (p : Z) (text : string) : Py.json :=
  Py.JObj [("patient_id", Py.JInt p); ("message", Py.JStr text)].

Definition with_key : environ := mkEnviron (Some "gsk_test") None.

Definition no_key : environ := mkEnviron None None.

(** An endpoint whose body carries [content] in its first choice. *)
Definition answering (content : Py.json) : endpoint :=
  fun _ =>
    Py.Return
      (Py.JObj
         [("choices",
           Py.JArr [Py.JObj [("message", Py.JObj [("content", content)])]])]).

(** An endpoint that cannot be reached in time. *)
Definition timing_out : endpoint :=
  fun _ => Py.Raise (Py.mkExn Py.RequestException "read timed out").

(** [n] exchanges of patient 1, a second apart: "question k" for k from 1 to
    [n], each answered "noted". *)
Fixpoint asked (n : nat) (d : database) : database :=
  match n with
  | O => d
  | S k =>
      stored
        (api_send_message with_key (answering (Py.JStr "noted")) (asked k d)
           (send_body 1 ("question " ++ Py.decimal (Z.of_nat n))) 1 1)
  end.

(** ** The records view and the numbering of rows *)

(** [ORDER BY created_at DESC] on patients: rows of equal timestamp keep
    their order. *)
Fixpoint insert_by_created_at_desc (p : Patient.row)
  (sorted : list Patient.row) : list Patient.row :=
  match sorted with
  | [] => [p]
  | x :: rest =>
      if (Patient.created_at x <=? Patient.created_at p)%nat then p :: sorted
      else x :: insert_by_created_at_desc p rest
  end.

Fixpoint order_by_created_at_desc (rows : list Patient.row)
  : list Patient.row :=
  match rows with
  | [] => []
  | p :: rest => insert_by_created_at_desc p (order_by_created_at_desc rest)
  end.

(** The route [/records]: the rows handed to the template. *)
Definition records (d : database) : list Patient.row :=
  order_by_created_at_desc (patients d).

Definition later (a b : Patient.row) : Prop :=
  (Patient.created_at b <= Patient.created_at a)%nat.

(** The numbers 1 to [n]. *)
Definition one_to (n : nat) : list Z := map Z.of_nat (seq 1 n).

(** Both tables hold the rowids 1, 2, ... in order, and each counter is the
    number of rows of its table. *)
Definition numbered (d : database) : Prop :=
  map Patient.id (patients d) = one_to (List.length (patients d))
  /\ patients_seq d = Z.of_nat (List.length (patients d))
  /\ map Chat.id (chats d) = one_to (List.length (chats d))
  /\ chats_seq d = Z.of_nat (List.length (chats d)).

(** A turn as the routes store it: tagged user or assistant. *)
Definition turn_as_stored (r : Chat.row) : Prop :=
  Chat.role r = "user" \/ Chat.role r = "assistant".

(** The values that are false in Python's truth test. *)
Definition falsy (v : Py.json) : Prop :=
  v = Py.JNull \/ v = Py.JBool false \/ v = Py.JInt 0 \/ v = Py.JStr ""
  \/ v = Py.JArr [] \/ v = Py.JObj [].

(** Following the words of the description, not the code: a patient
    identifier is missing or empty when the body has none (None) or has an
    empty text, list or object; a number or a boolean is a value that is
    present and is not empty. *)
Definition described_missing_or_empty (v : Py.json) : bool :=
  match v with
  | Py.JNull | Py.JStr EmptyString | Py.JArr [] | Py.JObj [] => true
  | _ => false
  end.

(** The OverflowError of binding an integer outside 64 bits. *)
Definition too_large : Py.exn :=
  Py.mkExn Py.OverflowError
           "Python int too large to convert to SQLite INTEGER".

(** A patient as the login route stores it: with a name that is not empty
    and has no white space at either end. *)
Definition patient_as_stored (p : Patient.row) : Prop :=
  Patient.name p <> "" /\ Py.strip (Patient.name p) = Patient.name p.

(** ** Ordering by timestamp *)

Lemma insert_before_later r rows :
  Forall (earlier r) rows -> insert_by_created_at r rows = r :: rows.
Proof.
  destruct rows as [|x rest]; [reflexivity|].
  intros H. inversion H as [|? ? Hx _]; subst. simpl.
  apply Nat.leb_le in Hx. now rewrite Hx.
Qed.

(** Rows already in timestamp order come back as they are. *)
Lemma order_by_sorted rows :
  StronglySorted earlier rows -> order_by_created_at rows = rows.
Proof.
  induction 1 as [|r rest Hsorted IH Hall]; simpl; [reflexivity|].
  rewrite IH. now apply insert_before_later.
Qed.

Lemma insert_keeps_order r rows :
  StronglySorted earlier rows ->
  StronglySorted earlier (insert_by_created_at r rows)
  /\ forall x, Forall (earlier x) rows -> earlier x r ->
               Forall (earlier x) (insert_by_created_at r rows).
Proof.
  induction 1 as [|y rest Hsorted IH Hall]; simpl.
  - split; [repeat constructor|]. intros; repeat constructor; assumption.
  - destruct (Chat.created_at r <=? Chat.created_at y)%nat eqn:Hle.
    + apply Nat.leb_le in Hle. split.
      * constructor; [now constructor|]. constructor; [exact Hle|].
        eapply Forall_impl; [|exact Hall]. unfold earlier in *. intros; lia.
      * intros x Hx Hr. constructor; assumption.
    + apply Nat.leb_gt in Hle. destruct IH as [IHs IHf]. split.
      * constructor; [exact IHs|]. apply IHf; [exact Hall|].
        unfold earlier; lia.
      * intros x Hx Hr. inversion Hx; subst.
        constructor; [assumption|]. now apply IHf.
Qed.

(** Whatever the rows, [ORDER BY created_at] returns them in timestamp
    order. *)
Lemma order_by_is_sorted rows :
  StronglySorted earlier (order_by_created_at rows).
Proof.
  induction rows as [|r rest IH]; simpl; [constructor|].
  now apply insert_keeps_order.
Qed.

Lemma where_keeps_order key rows :
  StronglySorted earlier rows ->
  StronglySorted earlier (where_patient_id key rows).
Proof.
  unfold where_patient_id.
  induction 1 as [|r rest Hsorted IH Hall]; simpl; [constructor|].
  destruct (Sqlite.sql_eqb (Chat.patient_id r) key); [|exact IH].
  constructor; [exact IH|].
  apply Forall_forall. intros x Hx. apply filter_In in Hx.
  rewrite Forall_forall in Hall. now apply Hall.
Qed.

Lemma where_app key rows rows' :
  where_patient_id key (rows ++ rows')
  = (where_patient_id key rows ++ where_patient_id key rows')%list.
Proof. apply filter_app. Qed.

Lemma sorted_snoc rows r :
  StronglySorted earlier rows ->
  Forall (fun x => earlier x r) rows ->
  StronglySorted earlier (rows ++ [r]).
Proof.
  induction 1 as [|y rest Hsorted IH Hall]; simpl; intros Hr.
  - repeat constructor.
  - inversion Hr; subst. constructor; [now apply IH|].
    apply Forall_app. split; [exact Hall|]. now repeat constructor.
Qed.

(** ** The databases the routes produce *)

Lemma chronological_init started : chronological (init_db started).
Proof. split; constructor. Qed.

Lemma chronological_insert_chat d elapsed pid role content :
  chronological d ->
  chronological (insert_chat d elapsed pid role content).
Proof.
  intros [Hs Hc]. split; simpl.
  - apply sorted_snoc; [exact Hs|].
    eapply Forall_impl; [|exact Hc]. unfold earlier; simpl. intros; lia.
  - apply Forall_app. split.
    + eapply Forall_impl; [|exact Hc]. simpl. intros; lia.
    + repeat constructor.
Qed.

Lemma chronological_insert_patient d elapsed name age gender phone :
  chronological d ->
  chronological (insert_patient d elapsed name age gender phone).
Proof.
  intros [Hs Hc]. split; simpl; [exact Hs|].
  eapply Forall_impl; [|exact Hc]. simpl. intros; lia.
Qed.

Lemma chronological_login d elapsed method f :
  chronological d -> chronological (fst (login d elapsed method f)).
Proof.
  intros H. unfold login. destruct method; [exact H|].
  destruct (String.eqb _ ""); [exact H|].
  now apply chronological_insert_patient.
Qed.

(** What a valid request does, stage by stage. *)
Lemma receive_accepted d body t_user pid m :
  accepted body = Some (pid, m) ->
  receive d body t_user
  = Py.Return
      (Accepted pid m
         (insert_chat d t_user pid "user" (Sqlite.BText m))
         (assemble
            (context_rows (insert_chat d t_user pid "user" (Sqlite.BText m))
                          pid) m)).
Proof.
  unfold accepted, receive. destruct (request_fields body) as [[pj um]|ex];
    [|discriminate]. simpl.
  destruct (invalid_input pj um); [discriminate|].
  destruct (Sqlite.bind_param 1 pj) as [b|ex]; [|discriminate].
  intros H; injection H as -> ->. reflexivity.
Qed.

Lemma receive_cases d body t_user :
  match receive d body t_user with
  | Py.Return (Accepted pid m d1 msgs) =>
      accepted body = Some (pid, m)
      /\ d1 = insert_chat d t_user pid "user" (Sqlite.BText m)
  | Py.Return Refused => accepted body = None
  | Py.Raise _ => accepted body = None
  end.
Proof.
  unfold accepted, receive. destruct (request_fields body) as [[pj um]|ex];
    simpl; [|reflexivity].
  destruct (invalid_input pj um); [reflexivity|].
  destruct (Sqlite.bind_param 1 pj) as [b|ex]; simpl; [|reflexivity].
  split; reflexivity.
Qed.

Lemma chronological_send e post d body t_user t_reply :
  chronological d ->
  chronological (stored (api_send_message e post d body t_user t_reply)).
Proof.
  intros H. unfold api_send_message.
  pose proof (receive_cases d body t_user) as Hr.
  destruct (receive d body t_user) as [[|pid m d1 msgs]|ex]; simpl; trivial.
  destruct Hr as [_ ->].
  destruct (complete e post msgs) as [text sent].
  destruct (Sqlite.bind_param 2 text); simpl;
    repeat apply chronological_insert_chat; exact H.
Qed.

Lemma chronological_step d op :
  chronological d -> chronological (step d op).
Proof.
  destruct op as [elapsed f|e post body t_user t_reply]; unfold step.
  - apply chronological_login.
  - apply chronological_send.
Qed.

(** Every database reached from a fresh one is chronological. *)
Lemma chronological_run ops : forall d,
  chronological d -> chronological (run d ops).
Proof.
  unfold run. induction ops as [|op ops IH]; simpl; intros d H; [exact H|].
  apply IH. now apply chronological_step.
Qed.

(** ** One request *)

Lemma bound_reply_text pos v b :
  Sqlite.bind_param pos v = Py.Return b ->
  Sqlite.text_affinity b = reply_text v.
Proof.
  destruct v as [| bo | z | t | items | members]; simpl;
    try destruct (Sqlite.int64 z); intros H; inversion H; reflexivity.
Qed.

(** A valid request that is answered with a reply has saved the user turn
    and then the reply, and nothing else. *)
Lemma send_reply e post d body t_user t_reply pid m reply :
  accepted body = Some (pid, m) ->
  response (api_send_message e post d body t_user t_reply) = Reply reply ->
  exists b,
    Sqlite.text_affinity b = reply_text reply
    /\ stored (api_send_message e post d body t_user t_reply)
       = insert_chat (insert_chat d t_user pid "user" (Sqlite.BText m))
                     t_reply pid "assistant" b.
Proof.
  intros Hacc. unfold api_send_message.
  rewrite (receive_accepted d body t_user pid m Hacc).
  destruct (complete e post _) as [text sent].
  destruct (Sqlite.bind_param 2 text) as [b|ex] eqn:Hb; simpl; [|discriminate].
  intros H; injection H as <-. exists b. split; [|reflexivity].
  exact (bound_reply_text _ _ _ Hb).
Qed.

Lemma turns_chat_page d p patient :
  chronological d ->
  fetch_patient d p = Some patient ->
  chat d p = ChatPage patient (map history_row (turns p d)).
Proof.
  intros [Hs _] Hp. unfold chat. rewrite Hp. unfold turns.
  rewrite order_by_sorted; [reflexivity|]. now apply where_keeps_order.
Qed.

Lemma conversation_chronological p d exchanges d' :
  conversation p d exchanges d' -> chronological d -> chronological d'.
Proof.
  induction 1 as [|d e post body t_user t_reply pid m reply rest d' _ _ _ _ IH];
    intros H; [exact H|].
  apply IH. now apply chronological_send.
Qed.

(** The rows a conversation appends. *)
Lemma conversation_rows p d exchanges d' :
  conversation p d exchanges d' ->
  patients d' = patients d
  /\ exists rows,
       chats d' = (chats d ++ rows)%list
       /\ Forall (fun r => Chat.patient_id r = Sqlite.Integer p) rows
       /\ map role_content rows = flat_map exchange_turns exchanges.
Proof.
  induction 1 as [|d e post body t_user t_reply pid m reply rest d'
                    Hacc Hp Hreply _ IH].
  - split; [reflexivity|]. exists []. rewrite app_nil_r. repeat split.
    constructor.
  - destruct (send_reply e post d body t_user t_reply pid m reply Hacc Hreply)
      as [b [Hb Hstored]].
    rewrite Hstored in IH. destruct IH as [Hpat [rows [Hchats [Hall Hmap]]]].
    split; [exact Hpat|].
    simpl in Hchats, Hpat. rewrite <- !app_assoc in Hchats. simpl in Hchats.
    eexists. split; [exact Hchats|]. split.
    + repeat constructor; simpl; try exact Hp. exact Hall.
    + simpl. unfold role_content at 1 2. simpl. rewrite Hb, Hmap. reflexivity.
Qed.

Lemma where_all p rows :
  Forall (fun r => Chat.patient_id r = Sqlite.Integer p) rows ->
  where_patient_id (Sqlite.Integer p) rows = rows.
Proof.
  intros Hall. unfold where_patient_id.
  induction Hall as [|r rest Hr _ IH]; simpl; [reflexivity|].
  rewrite Hr, IH. simpl. now rewrite Z.eqb_refl.
Qed.

Lemma exchange_turns_length exchanges :
  List.length (flat_map exchange_turns exchanges)
  = (2 * List.length exchanges)%nat.
Proof.
  induction exchanges as [|x rest IH]; simpl; [reflexivity|].
  rewrite IH. lia.
Qed.

Lemma map_history_row rows :
  map (fun h => (h_role h, h_content h)) (map history_row rows)
  = map role_content rows
  /\ map h_created_at (map history_row rows) = map Chat.created_at rows.
Proof.
  induction rows as [|r rest [IHa IHb]]; [split; reflexivity|].
  simpl. rewrite IHa, IHb. split; reflexivity.
Qed.

Lemma sorted_created_at rows :
  StronglySorted earlier rows ->
  StronglySorted le (map Chat.created_at rows).
Proof.
  induction 1 as [|r rest Hsorted IH Hall]; simpl; constructor; [exact IH|].
  apply Forall_map. exact Hall.
Qed.

(** X19. After N accepted send_message calls for one stored patient, each
    answered with a reply, exactly 2N turns have been added, and they are
    the patient's: for each call, in the order of the calls, one turn of
    role user holding the trimmed message and one of role assistant holding
    the reply. The chat view then shows, after the entries of the earlier
    turns, these roles and contents in that order, with the timestamps of
    the rows, which never decrease. *)
Theorem conversation_stores_two_turns_each p d exchanges d' patient :
  chronological d ->
  fetch_patient d p = Some patient ->
  conversation p d exchanges d' ->
  exists rows history,
    chats d' = (chats d ++ rows)%list
    /\ List.length rows = (2 * List.length exchanges)%nat
    /\ map role_content rows = flat_map exchange_turns exchanges
    /\ turns p d' = (turns p d ++ rows)%list
    /\ chat d' p = ChatPage patient history
    /\ map (fun h => (h_role h, h_content h)) history
       = (map role_content (turns p d)
            ++ flat_map exchange_turns exchanges)%list
    /\ map h_created_at history
       = map Chat.created_at (turns p d ++ rows)
    /\ StronglySorted le (map h_created_at history).
Proof.
  intros Hchron Hfetch Hconv.
  pose proof (conversation_chronological _ _ _ _ Hconv Hchron) as Hchron'.
  destruct (conversation_rows _ _ _ _ Hconv)
    as [Hpat [rows [Hchats [Hall Hmap]]]].
  assert (Hturns : turns p d' = (turns p d ++ rows)%list).
  { unfold turns. rewrite Hchats, where_app. f_equal. now apply where_all. }
  destruct (map_history_row (turns p d ++ rows)) as [Hrc Hts].
  exists rows, (map history_row (turns p d ++ rows)).
  split; [exact Hchats|]. split.
  { rewrite <- (length_map role_content), Hmap.
    apply exchange_turns_length. }
  split; [exact Hmap|]. split; [exact Hturns|]. split.
  { rewrite <- Hturns. apply turns_chat_page; [exact Hchron'|].
    unfold fetch_patient in *. now rewrite Hpat. }
  split; [now rewrite Hrc, map_app, Hmap|]. split; [exact Hts|].
  rewrite Hts, <- Hturns. apply sorted_created_at, where_keeps_order.
  apply Hchron'.
Qed.

(** ** The completion client *)

Lemma complete_without_key e post msgs :
  key_configured e = false ->
  complete e post msgs = (Py.JStr key_missing, []).
Proof.
  unfold key_configured, complete. destruct (GROQ_API_KEY e) as [key|];
    [|reflexivity].
  destruct (String.eqb key ""); [reflexivity|discriminate].
Qed.

Lemma complete_with_key e post msgs key :
  GROQ_API_KEY e = Some key -> key <> "" ->
  complete e post msgs
  = (match j <- post (build_request key msgs) ;; extract_reply j with
     | Py.Return assistant_text => assistant_text
     | Py.Raise ex => Py.JStr (service_error ex)
     end, [build_request key msgs]).
Proof.
  intros Hkey Hne. unfold complete. rewrite Hkey.
  destruct (String.eqb_spec key ""); [contradiction|reflexivity].
Qed.

(** An exception of the call, or of reading its body, ends as the service
    error text; one request was posted. *)
Lemma complete_absorbs_exception e post msgs key ex :
  GROQ_API_KEY e = Some key -> key <> "" ->
  (j <- post (build_request key msgs) ;; extract_reply j) = Py.Raise ex ->
  complete e post msgs
  = (Py.JStr (service_error ex), [build_request key msgs]).
Proof.
  intros Hkey Hne Hraise. rewrite (complete_with_key _ _ _ _ Hkey Hne).
  now rewrite Hraise.
Qed.

(** A valid request whose reply is a text is answered with it, both turns
    saved. *)
Lemma send_text_reply e post d body t_user t_reply pid m text :
  accepted body = Some (pid, m) ->
  fst (complete e post
         (assemble
            (context_rows (insert_chat d t_user pid "user" (Sqlite.BText m))
                          pid) m)) = Py.JStr text ->
  response (api_send_message e post d body t_user t_reply)
  = Reply (Py.JStr text)
  /\ stored (api_send_message e post d body t_user t_reply)
     = insert_chat (insert_chat d t_user pid "user" (Sqlite.BText m))
                   t_reply pid "assistant" (Sqlite.BText text).
Proof.
  intros Hacc. unfold api_send_message.
  rewrite (receive_accepted d body t_user pid m Hacc).
  destruct (complete e post _) as [answer sent]. simpl. intros ->.
  split; reflexivity.
Qed.



(** ** Validation *)

Lemma request_fields_text members s :
  Py.lookup "message" members = Some (Py.JStr s) ->
  request_fields (Py.JObj members)
  = Py.Return (match Py.lookup "patient_id" members with
               | Some v => v
               | None => Py.JNull
               end, Py.strip s).
Proof.
  intros Hm. unfold request_fields, Py.py_or.
  destruct members as [|kv rest]; [discriminate|]. cbn [Py.truthy Py.get].
  rewrite Hm. cbn [Py.bind]. destruct s; reflexivity.
Qed.

Lemma request_fields_no_message members :
  Py.lookup "message" members = None ->
  request_fields (Py.JObj members)
  = Py.Return (match Py.lookup "patient_id" members with
               | Some v => v
               | None => Py.JNull
               end, "").
Proof.
  intros Hm. unfold request_fields, Py.py_or.
  destruct members as [|kv rest]; [reflexivity|]. cbn [Py.truthy Py.get].
  rewrite Hm. reflexivity.
Qed.

Lemma truthy_false_iff v : Py.truthy v = false <-> falsy v.
Proof.
  unfold falsy. split.
  - destruct v as [| [|] | z | t | [|x items] | [|kv members]]; simpl;
      try discriminate; intros H; auto 6.
    + apply negb_false_iff, Z.eqb_eq in H. subst. auto 6.
    + apply negb_false_iff, String.eqb_eq in H. subst. auto 6.
  - intros [->|[->|[->|[->|[->| ->]]]]]; reflexivity.
Qed.

(** C4, as amended. For a request whose fields can be read (lines 101 to
    103 raise nothing: the body is a JSON object or is empty, and its
    message is a text or is missing or empty; [patient_id] is the field of
    that name, None when missing, [user_message] the trimmed message), the
    answer is 400 exactly when the patient identifier is false in Python's
    truth test (missing, null, false, 0, or an empty text, list or object)
    or the trimmed message is empty; and a request answered 400 leaves the
    database as it was and posts nothing. *)
Theorem invalid_input_iff e post d body t_user t_reply patient_id user_message :
  request_fields body = Py.Return (patient_id, user_message) ->
  (response (api_send_message e post d body t_user t_reply) = InvalidInput
   <-> falsy patient_id \/ user_message = "")
  /\ (response (api_send_message e post d body t_user t_reply) = InvalidInput
      -> stored (api_send_message e post d body t_user t_reply) = d
         /\ posted (api_send_message e post d body t_user t_reply) = []).
Proof.
  intros Hfields. rewrite <- truthy_false_iff.
  unfold api_send_message, receive. rewrite Hfields.
  cbn [Py.bind]. unfold invalid_input. cbn [Py.truthy].
  destruct (Py.truthy patient_id); cbn [negb orb].
  - destruct (String.eqb_spec user_message ""); cbn [negb].
    + split; [|intros _; split; reflexivity].
      split; [now right | reflexivity].
    + destruct (Sqlite.bind_param 1 patient_id) as [pid|ex]; cbn [Py.bind].
      * destruct (complete e post _) as [answer sent].
        destruct (Sqlite.bind_param 2 answer); simpl;
          (split; [split; [discriminate | intros [H|H]; [discriminate|contradiction]] | discriminate]).
      * simpl. split; [split; [discriminate | intros [H|H]; [discriminate|contradiction]] | discriminate].
  - split; [|intros _; split; reflexivity].
    split; [now left | reflexivity].
Qed.

(** C9. A submission of the login form whose name is blank after trimming
    creates no patient: the database is returned as it was and the form is
    shown again with an error. *)
Theorem blank_name_creates_nothing d elapsed f :
  Py.strip (form_get f "name" "") = "" ->
  login d elapsed POST f = (d, LoginPage (Some "Name is required")).
Proof.
  intros Hblank. unfold login. now rewrite Hblank.
Qed.

(** ** The conversation context *)

(** In a chronological database the context is read off the patient's turns
    from the oldest on. *)
Lemma context_rows_oldest d pid p :
  chronological d ->
  integer_column pid = Sqlite.Integer p ->
  context_rows d pid = firstn 40 (turns p d).
Proof.
  intros [Hs _] Hp. unfold context_rows, turns. rewrite Hp.
  rewrite order_by_sorted; [reflexivity|]. now apply where_keeps_order.
Qed.

Lemma turns_insert d elapsed pid role content p :
  integer_column pid = Sqlite.Integer p ->
  turns p (insert_chat d elapsed pid role content)
  = (turns p d
       ++ [Chat.mk (chats_seq d + 1) (Sqlite.Integer p) role
             (Sqlite.text_affinity content) (clock d + elapsed)])%list.
Proof.
  intros Hp. unfold turns. simpl. rewrite where_app, Hp. simpl.
  now rewrite Z.eqb_refl.
Qed.

(** With forty turns or more stored for the patient, the context of a valid
    request is the forty oldest of them: the later ones are left out. *)
Lemma context_of_long_history d body t_user pid m p :
  chronological d ->
  accepted body = Some (pid, m) ->
  integer_column pid = Sqlite.Integer p ->
  (40 <= List.length (turns p d))%nat ->
  receive d body t_user
  = Py.Return
      (Accepted pid m (insert_chat d t_user pid "user" (Sqlite.BText m))
         (assemble (firstn 40 (turns p d)) m)).
Proof.
  intros Hchron Hacc Hp Hlen.
  rewrite (receive_accepted d body t_user pid m Hacc). do 3 f_equal.
  rewrite (context_rows_oldest _ pid p);
    [|now apply chronological_insert_chat|exact Hp].
  rewrite (turns_insert _ _ _ _ _ p Hp), firstn_app.
  replace (40 - List.length (turns p d))%nat with 0%nat by lia.
  simpl. apply app_nil_r.
Qed.

(** With fewer than forty, the context is all of them and then the turn the
    request has just saved, so the new utterance is listed twice. *)
Lemma context_of_short_history d body t_user pid m p :
  chronological d ->
  accepted body = Some (pid, m) ->
  integer_column pid = Sqlite.Integer p ->
  (List.length (turns p d) < 40)%nat ->
  receive d body t_user
  = Py.Return
      (Accepted pid m (insert_chat d t_user pid "user" (Sqlite.BText m))
         ((system_msg :: map context_message (turns p d))
            ++ [mkMessage "user" (Some m); mkMessage "user" (Some m)])%list).
Proof.
  intros Hchron Hacc Hp Hlen.
  rewrite (receive_accepted d body t_user pid m Hacc). do 3 f_equal.
  rewrite (context_rows_oldest _ pid p);
    [|now apply chronological_insert_chat|exact Hp].
  rewrite (turns_insert _ _ _ _ _ p Hp).
  rewrite firstn_all2 by (rewrite length_app; simpl; lia).
  unfold assemble. rewrite map_app. simpl. rewrite <- app_assoc. reflexivity.
Qed.

(** The message list always ends with the new utterance, tagged user. *)
Lemma assemble_ends_with_utterance rows m :
  exists before,
    assemble rows m = (before ++ [mkMessage "user" (Some m)])%list.
Proof. unfold assemble. eexists. reflexivity. Qed.

(** Rows are only ever appended. *)
Lemma step_appends d op :
  exists rows, chats (step d op) = (chats d ++ rows)%list.
Proof.
  destruct op as [elapsed f|e post body t_user t_reply]; unfold step.
  - unfold login. destruct (String.eqb _ ""); exists []; simpl;
      now rewrite app_nil_r.
  - unfold api_send_message.
    pose proof (receive_cases d body t_user) as Hr.
    destruct (receive d body t_user) as [[|pid m d1 msgs]|ex]; simpl;
      try (exists []; now rewrite app_nil_r).
    destruct Hr as [_ ->].
    destruct (complete e post msgs) as [text sent].
    destruct (Sqlite.bind_param 2 text); simpl.
    + rewrite <- app_assoc. eexists. reflexivity.
    + eexists. reflexivity.
Qed.

Lemma run_appends ops : forall d,
  exists rows, chats (run d ops) = (chats d ++ rows)%list.
Proof.
  unfold run. induction ops as [|op ops IH]; simpl; intros d.
  - exists []. now rewrite app_nil_r.
  - destruct (IH (step d op)) as [rows Hrows].
    destruct (step_appends d op) as [rows0 Hrows0].
    exists (rows0 ++ rows)%list. now rewrite Hrows, Hrows0, app_assoc.
Qed.

(** Once a patient has forty turns, no later operation changes the context
    of their requests. *)
Lemma context_is_frozen d ops p :
  (40 <= List.length (turns p d))%nat ->
  firstn 40 (turns p (run d ops)) = firstn 40 (turns p d).
Proof.
  intros Hlen. destruct (run_appends ops d) as [rows Hrows].
  unfold turns in *. rewrite Hrows, where_app, firstn_app.
  replace (40 - _)%nat with 0%nat by lia. simpl. apply app_nil_r.
Qed.

(** ** Failures of the completion path *)

Lemma failed_completion_reply e post msgs advisory :
  completion_fails e post msgs advisory ->
  fst (complete e post msgs) = Py.JStr advisory.
Proof.
  intros [Hkey | key ex Hkey Hne Hraise].
  - now rewrite complete_without_key.
  - now rewrite (complete_absorbs_exception _ _ _ _ _ Hkey Hne Hraise).
Qed.

(** When the completion path of a valid request fails, the request is still
    answered with a reply, the advisory text; that text is saved as the
    assistant turn, and the chat view of the patient shows it last. *)
Lemma failure_is_persisted_and_replayed
  e post d body t_user t_reply pid m p patient advisory :
  chronological d ->
  fetch_patient d p = Some patient ->
  accepted body = Some (pid, m) ->
  integer_column pid = Sqlite.Integer p ->
  completion_fails e post
    (assemble
       (context_rows (insert_chat d t_user pid "user" (Sqlite.BText m)) pid)
       m) advisory ->
  let after := api_send_message e post d body t_user t_reply in
  response after = Reply (Py.JStr advisory)
  /\ exists user_turn assistant_turn,
       chats (stored after) = (chats d ++ [user_turn; assistant_turn])%list
       /\ role_content user_turn = ("user", Some m)
       /\ role_content assistant_turn = ("assistant", Some advisory)
       /\ chat (stored after) p
          = ChatPage patient
              (map history_row (turns p d ++ [user_turn; assistant_turn])).
Proof.
  intros Hchron Hfetch Hacc Hp Hfail after.
  destruct (send_text_reply e post d body t_user t_reply pid m advisory Hacc
              (failed_completion_reply _ _ _ _ Hfail)) as [Hresp Hstored].
  split; [exact Hresp|]. subst after. rewrite Hstored.
  do 2 eexists. split; [simpl; rewrite <- app_assoc; reflexivity|].
  split; [reflexivity|]. split; [reflexivity|].
  rewrite (turns_chat_page _ p patient);
    [|now repeat apply chronological_insert_chat|exact Hfetch].
  rewrite !(turns_insert _ _ _ _ _ p Hp), <- app_assoc. simpl.
  now rewrite Hp.
Qed.

(** A valid request ends in an error only when the reply it obtained cannot
    be stored. *)
Lemma send_error_is_unstorable_reply e post d body t_user t_reply pid m ex :
  accepted body = Some (pid, m) ->
  response (api_send_message e post d body t_user t_reply)
  = InternalServerError ex ->
  Sqlite.bind_param 2
    (fst (complete e post
            (assemble
               (context_rows
                  (insert_chat d t_user pid "user" (Sqlite.BText m)) pid) m)))
  = Py.Raise ex.
Proof.
  intros Hacc. unfold api_send_message.
  rewrite (receive_accepted d body t_user pid m Hacc).
  destruct (complete e post _) as [answer sent]. simpl.
  destruct (Sqlite.bind_param 2 answer); simpl; [discriminate|].
  now intros H; injection H as ->.
Qed.

(** ** The reference to the patient *)

Lemma unknown_patient_is_not_referenced d p r :
  fetch_patient d p = None ->
  Chat.patient_id r = Sqlite.Integer p ->
  references_patient d r = false.
Proof.
  unfold fetch_patient, references_patient. intros Hfind ->.
  induction (patients d) as [|q rest IH]; simpl in *; [reflexivity|].
  rewrite (Z.eqb_sym p). destruct (Patient.id q =? p); [discriminate|].
  simpl. now apply IH.
Qed.

(** Whatever the database, a valid request naming a patient that has no row
    leaves a turn that references no patient. *)
Lemma send_to_unknown_patient_breaks_reference
  e post d body t_user t_reply pid m p :
  accepted body = Some (pid, m) ->
  integer_column pid = Sqlite.Integer p ->
  fetch_patient d p = None ->
  foreign_key_holds (stored (api_send_message e post d body t_user t_reply))
  = false.
Proof.
  intros Hacc Hp Hnone. unfold api_send_message.
  rewrite (receive_accepted d body t_user pid m Hacc).
  destruct (complete e post _) as [answer sent].
  assert (Huser : forall d',
             patients d' = patients d ->
             references_patient d'
               (Chat.mk (chats_seq d + 1) (integer_column pid) "user"
                  (Some m) (clock d + t_user)) = false).
  { intros d' Hpat. apply (unknown_patient_is_not_referenced d' p);
      [unfold fetch_patient in *; now rewrite Hpat | exact Hp]. }
  unfold foreign_key_holds.
  destruct (Sqlite.bind_param 2 answer); simpl;
    rewrite ?forallb_app; simpl; rewrite Huser by reflexivity;
    simpl; now rewrite ?andb_false_r.
Qed.

(** ** Where the route departs from its description *)

(** C1. Patient 1 has 42 stored turns, "question 1" to "question 21" each
    answered "noted". The message list built for the next request, and
    posted to the endpoint, is the system message, the 40 oldest turns and
    the new utterance: "question 1", which is not among the 40 most recent
    turns, is in it, and "question 21", which is, is not. *)
Theorem context_keeps_the_oldest_forty :
  let d := asked 21 clinic in
  let m := "What about today?" in
  let sent := assemble (firstn 40 (turns 1 d)) m in
  List.length (turns 1 d) = 42%nat
  /\ (exists saved,
        receive d (send_body 1 m) 1
        = Py.Return (Accepted (Sqlite.BInt 1) m saved sent))
  /\ map messages
         (posted (api_send_message with_key (answering (Py.JStr "noted")) d
                    (send_body 1 m) 1 1)) = [sent]
  /\ occurrences "question 1" sent = 1%nat
  /\ occurrences "question 21" sent = 0%nat.
Proof.
  cbv zeta. split; [vm_compute; reflexivity|].
  split; [eexists; vm_compute; reflexivity|].
  split; [vm_compute; reflexivity|].
  split; vm_compute; reflexivity.
Qed.

(** C2. Patient 1 has no stored turn. The message list built for the first
    request, and posted to the endpoint, holds the new utterance twice: once
    as the row the request has just saved, read back as a prior turn, and
    once as the final message. *)
Theorem new_utterance_is_listed_twice :
  let m := "I have a headache" in
  let sent := [system_msg; mkMessage "user" (Some m);
               mkMessage "user" (Some m)] in
  turns 1 clinic = []
  /\ (exists saved,
        receive clinic (send_body 1 m) 1
        = Py.Return (Accepted (Sqlite.BInt 1) m saved sent))
  /\ map messages
         (posted (api_send_message with_key (answering (Py.JStr "noted"))
                    clinic (send_body 1 m) 1 1)) = [sent]
  /\ occurrences m sent = 2%nat.
Proof.
  cbv zeta. split; [reflexivity|].
  split; [eexists; vm_compute; reflexivity|].
  split; vm_compute; reflexivity.
Qed.

(** C3. In the clinic whose only patient is number 1, a request for patient
    7 is accepted and both of its turns are stored for patient 7, of whom
    the patients table has no row (the chat view of 7 answers 404): the
    foreign key of [chats] does not hold afterwards. *)
Theorem turn_of_unknown_patient_is_stored :
  let sent := SendMessage no_key timing_out (send_body 7 "hello") 1 1 in
  let d := run (init_db 0) [CreatePatient 0 jane; sent] in
  map Patient.id (patients d) = [1]
  /\ map Chat.patient_id (chats d) = [Sqlite.Integer 7; Sqlite.Integer 7]
  /\ chat d 7 = NotFound
  /\ foreign_key_holds d = false.
Proof.
  cbv zeta. split; [vm_compute; reflexivity|].
  split; [vm_compute; reflexivity|].
  split; vm_compute; reflexivity.
Qed.

(** C5. One valid request of patient 1, who has no stored turn, is answered
    by the endpoint with a list as content. The user turn is stored, the
    reply cannot be, and the route ends with status 500: after this one
    valid call the patient has one stored turn, not two, and the chat view
    shows the user turn alone. *)
Theorem valid_call_can_leave_one_turn :
  let body := send_body 1 "hello" in
  let malformed := answering (Py.JArr [Py.JStr "rest"]) in
  let after := api_send_message with_key malformed clinic body 1 1 in
  accepted body = Some (Sqlite.BInt 1, "hello")
  /\ turns 1 clinic = []
  /\ List.length (turns 1 (stored after)) = 1%nat
  /\ map role_content (turns 1 (stored after)) = [("user", Some "hello")]
  /\ chat (stored after) 1
     = ChatPage (Patient.mk 1 "Jane Doe" Sqlite.Null None None 0)
                [mkEntry "user" (Some "hello") 1].
Proof.
  cbv zeta. split; [reflexivity|]. split; [reflexivity|].
  split; [vm_compute; reflexivity|]. split; vm_compute; reflexivity.
Qed.

(** C7. The endpoint answers a valid request of patient 1 with a body whose
    first choice carries a list as content. No exception is raised inside
    the [try]; the list cannot be bound when the reply is saved, and the
    exception leaves the route: the answer is status 500, not a reply, and
    only the user turn is stored. *)
Theorem list_content_ends_in_server_error :
  let malformed := answering (Py.JArr [Py.JStr "rest"]) in
  let after := api_send_message with_key malformed clinic
                 (send_body 1 "hello") 1 1 in
  response after
  = InternalServerError
      (Py.mkExn Py.ProgrammingError
         "Error binding parameter 2: type 'list' is not supported")
  /\ map role_content (chats (stored after)) = [("user", Some "hello")].
Proof.
  cbv zeta. split; vm_compute; reflexivity.
Qed.

(** C10. Patient 1 has 40 stored turns when a request fails on a timeout.
    The error text is returned, saved as the assistant turn and shown by the
    chat view; but the context of the next request, and of every later one,
    is the 40 oldest turns, and the error text is not in it. *)
Theorem error_text_is_not_in_later_context :
  let d := asked 20 clinic in
  let advisory := "Sorry, AI service error: read timed out" in
  let after := api_send_message with_key timing_out d
                 (send_body 1 "question 21") 1 1 in
  response after = Reply (Py.JStr advisory)
  /\ last (map role_content (turns 1 (stored after))) ("", None)
     = ("assistant", Some advisory)
  /\ (exists patient history,
        chat (stored after) 1 = ChatPage patient history
        /\ last history (mkEntry "" None 0)
           = mkEntry "assistant" (Some advisory) 42)
  /\ (exists saved msgs,
        receive (stored after) (send_body 1 "question 22") 1
        = Py.Return (Accepted (Sqlite.BInt 1) "question 22" saved msgs)
        /\ occurrences advisory msgs = 0%nat)
  /\ forall ops,
       firstn 40 (turns 1 (run (stored after) ops))
       = firstn 40 (turns 1 d).
Proof.
  cbv zeta. split; [vm_compute; reflexivity|].
  split; [vm_compute; reflexivity|].
  split; [do 2 eexists; split; vm_compute; reflexivity|].
  split; [do 2 eexists; split; vm_compute; reflexivity|].
  intros ops. rewrite context_is_frozen; [|vm_compute; lia].
  vm_compute. reflexivity.
Qed.

(** ** Row numbers and lookups *)

Lemma one_to_succ n : one_to (S n) = (one_to n ++ [Z.of_nat n + 1])%list.
Proof.
  unfold one_to. rewrite seq_S, map_app. simpl. do 2 f_equal. lia.
Qed.

Lemma in_one_to n z : In z (one_to n) <-> 1 <= z <= Z.of_nat n.
Proof.
  unfold one_to. rewrite in_map_iff. split.
  - intros [k [<- Hk]]. apply in_seq in Hk. lia.
  - intros Hz. exists (Z.to_nat z). split; [lia|]. apply in_seq. lia.
Qed.

Lemma numbered_init started : numbered (init_db started).
Proof. repeat split. Qed.

Lemma numbered_insert_patient d elapsed name age gender phone :
  numbered d ->
  numbered (insert_patient d elapsed name age gender phone).
Proof.
  intros [Hp [Hps [Hc Hcs]]]. unfold numbered. simpl.
  rewrite map_app, length_app, Hp, Hps. simpl.
  rewrite Nat.add_1_r, one_to_succ. repeat split; trivial. lia.
Qed.

Lemma numbered_insert_chat d elapsed pid role content :
  numbered d -> numbered (insert_chat d elapsed pid role content).
Proof.
  intros [Hp [Hps [Hc Hcs]]]. unfold numbered. simpl.
  rewrite map_app, length_app, Hc, Hcs. simpl.
  rewrite Nat.add_1_r, one_to_succ. repeat split; trivial. lia.
Qed.

Lemma numbered_step d op : numbered d -> numbered (step d op).
Proof.
  intros H. destruct op as [elapsed f|e post body t_user t_reply];
    unfold step.
  - unfold login. destruct (String.eqb _ ""); [exact H|].
    now apply numbered_insert_patient.
  - unfold api_send_message.
    pose proof (receive_cases d body t_user) as Hr.
    destruct (receive d body t_user) as [[|pid m d1 msgs]|ex]; simpl; trivial.
    destruct Hr as [_ ->].
    destruct (complete e post msgs) as [text sent].
    destruct (Sqlite.bind_param 2 text); simpl;
      repeat apply numbered_insert_chat; exact H.
Qed.

Lemma numbered_run ops : forall d, numbered d -> numbered (run d ops).
Proof.
  unfold run. induction ops as [|op ops IH]; simpl; intros d H; [exact H|].
  apply IH. now apply numbered_step.
Qed.

Lemma fetch_patient_none d p :
  fetch_patient d p = None <-> ~ In p (map Patient.id (patients d)).
Proof.
  unfold fetch_patient. induction (patients d) as [|q rest IH]; simpl.
  - split; [intros _ []|reflexivity].
  - destruct (Z.eqb_spec (Patient.id q) p) as [Heq|Hne].
    + split; [discriminate|]. intros H. exfalso. apply H. now left.
    + rewrite IH. split; intros H; [intros [Hq|Hin]; auto | auto].
Qed.

Lemma fetch_patient_appended d p row rows :
  patients d = (rows ++ [row])%list ->
  ~ In p (map Patient.id rows) ->
  Patient.id row = p ->
  fetch_patient d p = Some row.
Proof.
  unfold fetch_patient. intros -> Hnot Hid.
  induction rows as [|q rest IH]; simpl in *.
  - now rewrite Hid, Z.eqb_refl.
  - destruct (Z.eqb_spec (Patient.id q) p) as [Heq|Hne].
    + exfalso. apply Hnot. now left.
    + apply IH. intros Hin. apply Hnot. now right.
Qed.

(** X1. From a fresh database, after any operations, a submission of the
    login form with a name that is not blank appends one patient row: its
    id is the number of patients so far plus one, its name the trimmed
    name, its timestamp the time of the request. The chats table is left as
    it was, the answer redirects to the dashboard of that id, and the
    dashboard of that id then shows this row. *)
Theorem login_creates_patient_and_dashboard_shows_it started ops elapsed f :
  let d := run (init_db started) ops in
  Py.strip (form_get f "name" "") <> "" ->
  exists row,
    login d elapsed POST f
    = (mkDb (patients d ++ [row]) (chats d) (Patient.id row) (chats_seq d)
            (clock d + elapsed),
       RedirectDashboard (Patient.id row))
    /\ Patient.id row = Z.of_nat (List.length (patients d)) + 1
    /\ Patient.name row = Py.strip (form_get f "name" "")
    /\ Patient.created_at row = (clock d + elapsed)%nat
    /\ dashboard (fst (login d elapsed POST f)) (Patient.id row)
       = DashboardPage row.
Proof.
  intros d Hname.
  assert (Hnum : numbered d) by apply numbered_run, numbered_init.
  destruct Hnum as [Hids [Hseq _]].
  unfold login. destruct (String.eqb_spec (Py.strip (form_get f "name" "")) "")
    as [Hblank|_]; [contradiction|].
  exists (Patient.mk (patients_seq d + 1) (Py.strip (form_get f "name" ""))
            (integer_column (or_None (Py.strip (form_get f "age" ""))))
            (Sqlite.text_affinity (or_None (Py.strip (form_get f "gender" ""))))
            (Sqlite.text_affinity (or_None (Py.strip (form_get f "phone" ""))))
            (clock d + elapsed)).
  split; [reflexivity|]. cbn [Patient.id Patient.name Patient.created_at fst].
  split; [now rewrite Hseq|]. split; [reflexivity|]. split; [reflexivity|].
  unfold dashboard.
  erewrite fetch_patient_appended; [reflexivity|reflexivity| |reflexivity].
  rewrite Hids, in_one_to, Hseq. lia.
Qed.

(** X2. From a fresh database, after any operations, the patients carry the
    ids 1, 2, ... in the order of their creation and the chat turns the ids
    1, 2, ... in the order they were saved: no id is skipped or given
    twice. *)
Theorem rowids_are_consecutive started ops :
  let d := run (init_db started) ops in
  map Patient.id (patients d) = one_to (List.length (patients d))
  /\ map Chat.id (chats d) = one_to (List.length (chats d)).
Proof.
  intros d.
  destruct (numbered_run ops _ (numbered_init started)) as [Hp [_ [Hc _]]].
  split; assumption.
Qed.

Lemma bind_url_id pos (n : N) :
  (Z.of_N n < 2 ^ 63
   /\ Sqlite.bind_param pos (Py.JInt (Z.of_N n))
      = Py.Return (Sqlite.BInt (Z.of_N n)))
  \/ (2 ^ 63 <= Z.of_N n
      /\ Sqlite.bind_param pos (Py.JInt (Z.of_N n)) = Py.Raise too_large).
Proof.
  unfold Sqlite.bind_param, Sqlite.int64.
  destruct (Z.ltb_spec (Z.of_N n) (2 ^ 63)) as [Hlt|Hge].
  - left. split; [exact Hlt|].
    destruct (Z.leb_spec (- 2 ^ 63) (Z.of_N n)) as [_|Hneg];
      [reflexivity|lia].
  - right. split; [exact Hge|]. now rewrite andb_false_r.
Qed.

(** X3. From a fresh database, after any operations, for an id taken from
    the URL: the dashboard and the chat route end with status 500 (the
    OverflowError of binding the id) exactly when the id is 2^63 or more,
    and they answer 404 exactly when the id is below 2^63 and is not one of
    1 to the number of patients created. *)
Theorem page_not_found_iff_id_out_of_range started ops (patient_id : N) :
  let d := run (init_db started) ops in
  let id := Z.of_N patient_id in
  let known := 1 <= id <= Z.of_nat (List.length (patients d)) in
  (dashboard_route d patient_id = ServerError too_large <-> 2 ^ 63 <= id)
  /\ (chat_route d patient_id = ServerError too_large <-> 2 ^ 63 <= id)
  /\ (dashboard_route d patient_id = Page NotFound
      <-> id < 2 ^ 63 /\ ~ known)
  /\ (chat_route d patient_id = Page NotFound <-> id < 2 ^ 63 /\ ~ known).
Proof.
  intros d id known.
  destruct (numbered_run ops _ (numbered_init started)) as [Hids _].
  fold d in Hids.
  assert (Hnone : fetch_patient d id = None <-> ~ known).
  { rewrite fetch_patient_none, Hids, in_one_to. reflexivity. }
  unfold dashboard_route, chat_route, dashboard, chat.
  destruct (bind_url_id 1 patient_id) as [[Hlt ->]|[Hge ->]];
    fold id in Hnone |- *.
  - destruct (fetch_patient d id) as [row|].
    + assert (Hknown : known).
      { destruct (Z_le_dec 1 id) as [H1|H1];
          [destruct (Z_le_dec id (Z.of_nat (List.length (patients d))))
             as [H2|H2]; [now split|]|];
          exfalso; (assert (Hn : ~ known) by (unfold known; lia));
          apply Hnone in Hn; discriminate. }
      split; [split; [discriminate|intros; lia]|].
      split; [split; [discriminate|intros; lia]|].
      split; (split; [discriminate|intros [_ Hn]; contradiction]).
    + assert (Hn : ~ known) by now apply Hnone.
      split; [split; [discriminate|intros; lia]|].
      split; [split; [discriminate|intros; lia]|].
      split; (split; [intros _; now split|reflexivity]).
  - split; [split; [intros _; exact Hge|reflexivity]|].
    split; [split; [intros _; exact Hge|reflexivity]|].
    split; (split; [discriminate|intros [Hlt _]; lia]).
Qed.

(** ** What the ordered queries return *)

Lemma insert_by_created_at_perm r rows :
  Permutation (insert_by_created_at r rows) (r :: rows).
Proof.
  induction rows as [|x rest IH]; simpl; [reflexivity|].
  destruct (Chat.created_at r <=? Chat.created_at x)%nat; [reflexivity|].
  rewrite IH. apply perm_swap.
Qed.

Lemma order_by_perm rows : Permutation (order_by_created_at rows) rows.
Proof.
  induction rows as [|r rest IH]; simpl; [reflexivity|].
  rewrite insert_by_created_at_perm. now constructor.
Qed.

Lemma insert_desc_perm p rows :
  Permutation (insert_by_created_at_desc p rows) (p :: rows).
Proof.
  induction rows as [|x rest IH]; simpl; [reflexivity|].
  destruct (Patient.created_at x <=? Patient.created_at p)%nat;
    [reflexivity|].
  rewrite IH. apply perm_swap.
Qed.

Lemma insert_desc_sorted p rows :
  StronglySorted later rows ->
  StronglySorted later (insert_by_created_at_desc p rows).
Proof.
  induction 1 as [|y rest Hsorted IH Hall]; simpl; [repeat constructor|].
  destruct (Patient.created_at y <=? Patient.created_at p)%nat eqn:Hle.
  - apply Nat.leb_le in Hle. constructor; [now constructor|].
    constructor; [exact Hle|].
    eapply Forall_impl; [|exact Hall]. unfold later in *. intros; lia.
  - apply Nat.leb_gt in Hle. constructor; [exact IH|].
    apply Forall_forall. intros x Hx.
    apply (Permutation_in _ (insert_desc_perm p rest)) in Hx.
    destruct Hx as [<-|Hx]; [unfold later; lia|].
    rewrite Forall_forall in Hall. now apply Hall.
Qed.

Lemma sorted_map_history rows :
  StronglySorted earlier rows ->
  StronglySorted (fun a b => (h_created_at a <= h_created_at b)%nat)
                 (map history_row rows).
Proof.
  induction 1 as [|r rest Hsorted IH Hall]; simpl; constructor; [exact IH|].
  apply Forall_map. exact Hall.
Qed.

Lemma In_firstn {A} n (x : A) l : In x (firstn n l) -> In x l.
Proof.
  revert l. induction n as [|n IH]; intros [|y l]; simpl; try tauto.
  intros [H|H]; [now left|right; now apply IH].
Qed.

Lemma sql_eqb_eq a b : Sqlite.sql_eqb a b = true -> a = b.
Proof.
  destruct a, b; simpl; try discriminate; intros H.
  - apply Z.eqb_eq in H. now subst.
  - apply Z.eqb_eq in H. now subst.
  - apply String.eqb_eq in H. now subst.
Qed.

(** X4. Whatever the database holds, the chat view of a patient that has a
    row lists the stored turns of that patient and no other row, each turn
    once, in the order of their timestamps. *)
Theorem chat_history_is_the_turns_of_the_patient d p patient :
  fetch_patient d p = Some patient ->
  exists history,
    chat d p = ChatPage patient history
    /\ Permutation history (map history_row (turns p d))
    /\ (forall h, In h history <->
                  exists r, In r (chats d)
                            /\ Chat.patient_id r = Sqlite.Integer p
                            /\ h = history_row r)
    /\ StronglySorted (fun a b => (h_created_at a <= h_created_at b)%nat)
                      history.
Proof.
  intros Hfetch. unfold chat. rewrite Hfetch. eexists.
  split; [reflexivity|].
  assert (Hperm : Permutation
                    (map history_row
                       (order_by_created_at
                          (where_patient_id (Sqlite.Integer p) (chats d))))
                    (map history_row (turns p d))).
  { apply Permutation_map, order_by_perm. }
  split; [exact Hperm|]. split.
  - intros h. split.
    + intros Hin. apply (Permutation_in _ Hperm) in Hin.
      apply in_map_iff in Hin. destruct Hin as [r [<- Hr]].
      apply filter_In in Hr. destruct Hr as [Hr Heq].
      exists r. split; [exact Hr|]. split; [|reflexivity].
      now apply sql_eqb_eq.
    + intros [r [Hr [Hpid ->]]].
      apply (Permutation_in _ (Permutation_sym Hperm)).
      apply in_map. apply filter_In. split; [exact Hr|].
      rewrite Hpid. simpl. apply Z.eqb_refl.
  - apply sorted_map_history, order_by_is_sorted.
Qed.

(** X5. Whatever the database holds, the records view lists every patient
    row, each once, and no row comes before one of a later timestamp. *)
Theorem records_lists_all_patients_newest_first d :
  Permutation (records d) (patients d)
  /\ StronglySorted later (records d).
Proof.
  unfold records. induction (patients d) as [|p rest [IHp IHs]]; simpl.
  - split; constructor.
  - split.
    + rewrite insert_desc_perm. now constructor.
    + now apply insert_desc_sorted.
Qed.

(** ** The shape of the message list *)

Lemma receive_context d body t_user pid m saved msgs :
  receive d body t_user = Py.Return (Accepted pid m saved msgs) ->
  accepted body = Some (pid, m)
  /\ saved = insert_chat d t_user pid "user" (Sqlite.BText m)
  /\ msgs = assemble (context_rows saved pid) m.
Proof.
  intros Hrec. pose proof (receive_cases d body t_user) as Hcases.
  rewrite Hrec in Hcases. destruct Hcases as [Hacc Hsaved].
  rewrite (receive_accepted d body t_user pid m Hacc) in Hrec.
  injection Hrec as _ Hmsgs. subst saved. repeat split; congruence.
Qed.

(** X6. The message list built for an accepted request is the system
    message, then at most 40 messages each tagged user or assistant, then
    the trimmed utterance tagged user: never more than 42 messages. *)
Theorem message_list_is_bounded d body t_user pid m saved msgs :
  receive d body t_user = Py.Return (Accepted pid m saved msgs) ->
  exists prior,
    msgs = (system_msg :: prior ++ [mkMessage "user" (Some m)])%list
    /\ (List.length prior <= 40)%nat
    /\ (List.length msgs <= 42)%nat
    /\ Forall (fun x => msg_role x = "user" \/ msg_role x = "assistant")
              prior.
Proof.
  intros Hrec. destruct (receive_context _ _ _ _ _ _ _ Hrec) as [_ [_ ->]].
  exists (map context_message (context_rows saved pid)).
  assert (Hlen : (List.length (map context_message (context_rows saved pid))
                  <= 40)%nat).
  { rewrite length_map. unfold context_rows. apply firstn_le_length. }
  split; [reflexivity|]. split; [exact Hlen|]. split.
  - unfold assemble. simpl. rewrite length_app. simpl. lia.
  - apply Forall_map, Forall_forall. intros r _. unfold context_message.
    simpl. destruct (String.eqb (Chat.role r) "user"); [now left|now right].
Qed.

(** X7. The messages between the system message and the new utterance are
    read from stored rows of the requesting patient only: no turn of
    another patient is put in the message list. *)
Theorem message_list_holds_own_turns_only d body t_user pid m saved msgs :
  receive d body t_user = Py.Return (Accepted pid m saved msgs) ->
  exists rows,
    msgs = assemble rows m
    /\ Forall (fun r => In r (chats saved)
                        /\ Chat.patient_id r = integer_column pid) rows.
Proof.
  intros Hrec. destruct (receive_context _ _ _ _ _ _ _ Hrec) as [_ [_ ->]].
  exists (context_rows saved pid). split; [reflexivity|].
  apply Forall_forall. intros r Hr. unfold context_rows in Hr.
  apply (In_firstn 40) in Hr.
  apply (Permutation_in _ (order_by_perm _)) in Hr.
  apply filter_In in Hr. destruct Hr as [Hin Heq].
  split; [exact Hin|]. now apply sql_eqb_eq.
Qed.

(** ** Trimming *)

Lemma lstrip_starts_unspaced s :
  Py.lstrip s = ""
  \/ exists c rest, Py.lstrip s = String c rest /\ Py.isspace c = false.
Proof.
  induction s as [|c rest IH]; simpl; [now left|].
  destruct (Py.isspace c) eqn:Hc; [exact IH|].
  right. now exists c, rest.
Qed.

Lemma rstrip_keeps_unspaced_head c rest :
  Py.isspace c = false ->
  exists kept, Py.rstrip (String c rest) = String c kept.
Proof.
  intros Hc. simpl. destruct (Py.rstrip rest) as [|k kept].
  - rewrite Hc. now exists "".
  - now exists (String k kept).
Qed.

Lemma rstrip_idempotent s : Py.rstrip (Py.rstrip s) = Py.rstrip s.
Proof.
  induction s as [|c rest IH]; [reflexivity|]. simpl.
  destruct (Py.rstrip rest) as [|k kept] eqn:Hrest.
  - destruct (Py.isspace c) eqn:Hc; [reflexivity|]. simpl. now rewrite Hc.
  - change (Py.rstrip (String c (String k kept))) with
      (match Py.rstrip (String k kept) with
       | EmptyString =>
           if Py.isspace c then EmptyString else String c EmptyString
       | kept' => String c kept'
       end).
    now rewrite IH.
Qed.

(** Trimming a trimmed text changes nothing. *)
Lemma strip_idempotent s : Py.strip (Py.strip s) = Py.strip s.
Proof.
  unfold Py.strip.
  destruct (lstrip_starts_unspaced s) as [->|[c [rest [-> Hc]]]];
    [reflexivity|].
  destruct (rstrip_keeps_unspaced_head c rest Hc) as [kept Hkept].
  rewrite Hkept. cbn [Py.lstrip]. rewrite Hc, <- Hkept.
  apply rstrip_idempotent.
Qed.

Lemma request_fields_trimmed body patient_id user_message :
  request_fields body = Py.Return (patient_id, user_message) ->
  exists raw, user_message = Py.strip raw.
Proof.
  unfold request_fields.
  destruct (Py.get _ "patient_id" _) as [pj|ex]; [|discriminate].
  cbn [Py.bind].
  destruct (Py.get _ "message" _) as [msg|ex]; [|discriminate].
  cbn [Py.bind].
  destruct (Py.py_or msg (Py.JStr "")) as [| b | z | raw | items | members];
    try discriminate.
  cbn [Py.strip_method Py.bind]. intros H. injection H as _ <-.
  now exists raw.
Qed.

(** ** What a request leaves behind *)

Lemma complete_posted e post msgs :
  (key_configured e = false /\ snd (complete e post msgs) = [])
  \/ (exists key, GROQ_API_KEY e = Some key /\ key_configured e = true
                  /\ snd (complete e post msgs) = [build_request key msgs]).
Proof.
  unfold key_configured, complete.
  destruct (GROQ_API_KEY e) as [key|]; [|now left].
  destruct (String.eqb key ""); [now left|].
  right. now exists key.
Qed.

Lemma extract_reply_truthy j v :
  extract_reply j = Py.Return v -> Py.truthy v = true.
Proof.
  unfold extract_reply.
  destruct (first_choice j) as [choice|ex]; [|discriminate]. cbn [Py.bind].
  destruct (Py.get choice "message" _) as [msg|ex]; [|discriminate].
  cbn [Py.bind].
  destruct (Py.get msg "content" _) as [content|ex]; [|discriminate].
  cbn [Py.bind].
  destruct (Py.truthy content) eqn:Hcontent.
  - intros H. injection H as <-. exact Hcontent.
  - destruct (Py.get choice "text" _) as [text|ex]; [|discriminate].
    cbn [Py.bind]. unfold Py.py_or.
    destruct (Py.truthy text) eqn:Htext; intros H; injection H as <-;
      [exact Htext|reflexivity].
Qed.

Lemma complete_truthy e post msgs :
  Py.truthy (fst (complete e post msgs)) = true.
Proof.
  unfold complete. destruct (GROQ_API_KEY e) as [key|]; [|reflexivity].
  destruct (String.eqb key ""); [reflexivity|]. cbn [fst].
  destruct (post _) as [j|ex]; cbn [Py.bind]; [|reflexivity].
  destruct (extract_reply j) as [v|ex] eqn:Hv; [|reflexivity].
  now apply (extract_reply_truthy j).
Qed.


(** X9. A request that is not accepted (refused with 400, or ended by an
    exception while its fields are read or its patient id is bound) changes
    nothing in the database, posts nothing to the endpoint and is not
    answered with a reply. *)
Theorem unaccepted_request_leaves_no_trace e post d body t_user t_reply :
  accepted body = None ->
  stored (api_send_message e post d body t_user t_reply) = d
  /\ posted (api_send_message e post d body t_user t_reply) = []
  /\ forall reply,
       response (api_send_message e post d body t_user t_reply)
       <> Reply reply.
Proof.
  intros Hacc. unfold api_send_message.
  pose proof (receive_cases d body t_user) as Hcases.
  destruct (receive d body t_user) as [[|pid m d1 msgs]|ex]; simpl.
  - repeat split; discriminate.
  - destruct Hcases as [Hsome _]. congruence.
  - repeat split; discriminate.
Qed.

(** X8. Whatever the request, at most one request is posted to the
    endpoint (there is no retry, also when the call fails); none is posted
    exactly when the request is not accepted or no credential is configured;
    and a posted request goes to the configured endpoint and model with 400
    tokens at most, a timeout of 30 seconds and the credential as bearer. *)
Theorem at_most_one_request_is_posted e post d body t_user t_reply :
  let out := api_send_message e post d body t_user t_reply in
  (List.length (posted out) <= 1)%nat
  /\ (posted out = [] <-> accepted body = None \/ key_configured e = false)
  /\ Forall (fun r => url r = GROQ_ENDPOINT /\ model r = GROQ_MODEL
                      /\ max_tokens r = 400 /\ timeout r = 30
                      /\ exists key, GROQ_API_KEY e = Some key
                                     /\ authorization r = "Bearer " ++ key)
            (posted out).
Proof.
  intros out. subst out. unfold api_send_message.
  pose proof (receive_cases d body t_user) as Hcases.
  destruct (receive d body t_user) as [[|pid m d1 msgs]|ex].
  - simpl. split; [lia|]. split; [|constructor].
    split; [now left|reflexivity].
  - destruct Hcases as [Hacc _].
    assert (Hposted : posted
                        (let (assistant_text, sent) := complete e post msgs in
                         match Sqlite.bind_param 2 assistant_text with
                         | Py.Return reply =>
                             mkOutcome
                               (insert_chat d1 t_reply pid "assistant" reply)
                               (Reply assistant_text) sent
                         | Py.Raise ex =>
                             mkOutcome d1 (InternalServerError ex) sent
                         end) = snd (complete e post msgs)).
    { destruct (complete e post msgs) as [answer sent].
      destruct (Sqlite.bind_param 2 answer); reflexivity. }
    rewrite Hposted.
    destruct (complete_posted e post msgs)
      as [[Hkey ->]|[key [Hkey [Hconf ->]]]].
    + split; [simpl; lia|]. split; [|constructor].
      split; [now right|reflexivity].
    + split; [simpl; lia|]. split.
      * split; [discriminate|]. intros [H|H]; congruence.
      * constructor; [|constructor]. simpl. repeat split.
        now exists key.
  - simpl. split; [lia|]. split; [|constructor].
    split; [now left|reflexivity].
Qed.

(** X10. An accepted request has saved its user turn before the completion
    is asked for, and the turn stays: when the route ends with status 500
    because the reply cannot be stored, the database holds the user turn
    and no assistant turn; when it ends with a reply, the assistant turn
    follows the user turn. It never ends with status 400. *)
Theorem user_turn_is_saved_before_the_reply
  e post d body t_user t_reply pid m :
  accepted body = Some (pid, m) ->
  let out := api_send_message e post d body t_user t_reply in
  let saved := insert_chat d t_user pid "user" (Sqlite.BText m) in
  response out <> InvalidInput
  /\ (forall ex, response out = InternalServerError ex -> stored out = saved)
  /\ (forall reply, response out = Reply reply ->
        exists b, Sqlite.bind_param 2 reply = Py.Return b
                  /\ stored out
                     = insert_chat saved t_reply pid "assistant" b).
Proof.
  intros Hacc out saved. subst out saved. unfold api_send_message.
  rewrite (receive_accepted d body t_user pid m Hacc).
  destruct (complete e post _) as [answer sent].
  destruct (Sqlite.bind_param 2 answer) as [b|ex'] eqn:Hb; simpl.
  - split; [discriminate|]. split; [discriminate|].
    intros reply H. injection H as <-. now exists b.
  - split; [discriminate|]. split; [reflexivity|]. discriminate.
Qed.

(** X11. Whatever the request, the message route leaves the patients table
    and its counter as they were and never sets the clock back; the login
    route leaves the chats table and its counter as they were. *)
Theorem routes_keep_to_their_table e post d body t_user t_reply elapsed
  method f :
  let out := api_send_message e post d body t_user t_reply in
  patients (stored out) = patients d
  /\ patients_seq (stored out) = patients_seq d
  /\ (clock d <= clock (stored out))%nat
  /\ chats (fst (login d elapsed method f)) = chats d
  /\ chats_seq (fst (login d elapsed method f)) = chats_seq d.
Proof.
  intros out. subst out. split; [|split; [|split]].
  - unfold api_send_message.
    pose proof (receive_cases d body t_user) as Hcases.
    destruct (receive d body t_user) as [[|pid m d1 msgs]|ex]; trivial.
    destruct Hcases as [_ ->]. destruct (complete e post msgs) as [a sent].
    destruct (Sqlite.bind_param 2 a); reflexivity.
  - unfold api_send_message.
    pose proof (receive_cases d body t_user) as Hcases.
    destruct (receive d body t_user) as [[|pid m d1 msgs]|ex]; trivial.
    destruct Hcases as [_ ->]. destruct (complete e post msgs) as [a sent].
    destruct (Sqlite.bind_param 2 a); reflexivity.
  - unfold api_send_message.
    pose proof (receive_cases d body t_user) as Hcases.
    destruct (receive d body t_user) as [[|pid m d1 msgs]|ex]; simpl;
      try lia.
    destruct Hcases as [_ ->]. destruct (complete e post msgs) as [a sent].
    destruct (Sqlite.bind_param 2 a); simpl; lia.
  - unfold login. destruct method; [split; reflexivity|].
    destruct (String.eqb _ ""); split; reflexivity.
Qed.

(** X12. The message of an accepted request, as it is saved and sent, is
    not empty and has no white space at either end: trimming it again
    changes nothing. *)
Theorem accepted_message_is_trimmed body pid m :
  accepted body = Some (pid, m) ->
  m <> "" /\ Py.strip m = m.
Proof.
  unfold accepted.
  destruct (request_fields body) as [[pj um]|ex] eqn:Hfields; [|discriminate].
  destruct (invalid_input pj um) eqn:Hinvalid; [discriminate|].
  destruct (Sqlite.bind_param 1 pj); [|discriminate].
  intros H. injection H as _ <-.
  destruct (request_fields_trimmed _ _ _ Hfields) as [raw ->]. split.
  - unfold invalid_input in Hinvalid. apply orb_false_elim in Hinvalid.
    destruct Hinvalid as [_ Hm]. cbn [Py.truthy] in Hm.
    intros Hblank. rewrite Hblank in Hm. discriminate.
  - apply strip_idempotent.
Qed.

(** X13. Whatever the request and whatever the endpoint does, a reply that
    the route returns is never empty: null, false, zero, the empty text,
    the empty list and the empty object are never sent as a reply. *)
Theorem reply_is_never_empty e post d body t_user t_reply reply :
  response (api_send_message e post d body t_user t_reply) = Reply reply ->
  Py.truthy reply = true.
Proof.
  unfold api_send_message.
  destruct (receive d body t_user) as [[|pid m d1 msgs]|ex];
    try discriminate.
  pose proof (complete_truthy e post msgs) as Htruthy.
  destruct (complete e post msgs) as [answer sent].
  destruct (Sqlite.bind_param 2 answer); [|discriminate].
  simpl. intros H. injection H as <-. exact Htruthy.
Qed.

(** X14. With a credential configured, when the call to the endpoint raises
    or reading its body raises, an accepted request is answered with the
    text "Sorry, AI service error: " followed by the text of the exception;
    that text is saved as the assistant turn after the user turn, and the
    one request posted is not repeated. *)
Theorem exception_of_the_call_becomes_the_reply
  e post d body t_user t_reply pid m key ex :
  accepted body = Some (pid, m) ->
  GROQ_API_KEY e = Some key -> key <> "" ->
  let saved := insert_chat d t_user pid "user" (Sqlite.BText m) in
  let msgs := assemble (context_rows saved pid) m in
  (j <- post (build_request key msgs) ;; extract_reply j) = Py.Raise ex ->
  api_send_message e post d body t_user t_reply
  = mkOutcome
      (insert_chat saved t_reply pid "assistant"
                   (Sqlite.BText (service_error ex)))
      (Reply (Py.JStr (service_error ex)))
      [build_request key msgs].
Proof.
  intros Hacc Hkey Hne saved msgs Hraise. unfold api_send_message.
  rewrite (receive_accepted d body t_user pid m Hacc).
  fold saved. fold msgs.
  now rewrite (complete_absorbs_exception _ _ _ _ _ Hkey Hne Hraise).
Qed.

(** X15. Reading the body of the endpoint's answer: a body that is not an
    object raises the AttributeError naming its type; an object without
    choices gives the fixed text for an empty response, and so does any
    list of choices whose first is an empty object; an empty list of
    choices raises the IndexError of the list; and of a list of choices
    only the first is read, whatever follows it. *)
Theorem extraction_of_edge_bodies j members first others :
  (match j with Py.JObj _ => True
   | _ => extract_reply j = Py.Raise (Py.no_attribute j "get") end)
  /\ (Py.lookup "choices" members = None ->
      extract_reply (Py.JObj members) = Py.Return (Py.JStr empty_response))
  /\ (Py.lookup "choices" members = Some (Py.JArr (Py.JObj [] :: others)) ->
      extract_reply (Py.JObj members) = Py.Return (Py.JStr empty_response))
  /\ (Py.lookup "choices" members = Some (Py.JArr []) ->
      extract_reply (Py.JObj members)
      = Py.Raise (Py.mkExn Py.IndexError "list index out of range"))
  /\ (Py.lookup "choices" members = Some (Py.JArr (first :: others)) ->
      extract_reply (Py.JObj members)
      = extract_reply (Py.JObj [("choices", Py.JArr [first])])).
Proof.
  split; [destruct j; trivial|].
  unfold extract_reply, first_choice. cbn [Py.get Py.bind].
  split; [intros ->; reflexivity|]. split; [intros ->; reflexivity|].
  split; [intros ->; reflexivity|]. intros ->. reflexivity.
Qed.


(** ** What the tables hold *)

Lemma step_keeps_turns_as_stored d op :
  Forall turn_as_stored (chats d) -> Forall turn_as_stored (chats (step d op)).
Proof.
  intros H. destruct op as [elapsed f|e post body t_user t_reply];
    unfold step.
  - unfold login. destruct (String.eqb _ ""); exact H.
  - unfold api_send_message.
    pose proof (receive_cases d body t_user) as Hcases.
    destruct (receive d body t_user) as [[|pid m d1 msgs]|ex]; trivial.
    destruct Hcases as [_ ->].
    destruct (complete e post msgs) as [answer sent].
    assert (Huser : Forall turn_as_stored
                      (chats (insert_chat d t_user pid "user"
                                          (Sqlite.BText m)))).
    { simpl. apply Forall_app. split; [exact H|].
      constructor; [|constructor]. now left. }
    destruct (Sqlite.bind_param 2 answer) as [b|ex]; [|exact Huser].
    cbn [stored insert_chat chats]. apply Forall_app. split; [exact Huser|].
    constructor; [|constructor]. now right.
Qed.

Lemma step_keeps_patients_as_stored d op :
  Forall patient_as_stored (patients d) ->
  Forall patient_as_stored (patients (step d op)).
Proof.
  intros H. destruct op as [elapsed f|e post body t_user t_reply];
    unfold step.
  - unfold login.
    destruct (String.eqb_spec (Py.strip (form_get f "name" "")) "")
      as [Hblank|Hname]; [exact H|].
    simpl. apply Forall_app. split; [exact H|].
    constructor; [|constructor].
    split; simpl; [exact Hname|apply strip_idempotent].
  - unfold api_send_message.
    pose proof (receive_cases d body t_user) as Hcases.
    destruct (receive d body t_user) as [[|pid m d1 msgs]|ex]; trivial.
    destruct Hcases as [_ ->]. destruct (complete e post msgs) as [a sent].
    destruct (Sqlite.bind_param 2 a); exact H.
Qed.

(** X17. From a fresh database, after any operations, every stored turn is
    tagged user or assistant; so the message built from a stored turn
    carries the role the turn was stored with: the normalisation of the
    context loop changes no role that the routes stored. *)
Theorem stored_turns_are_user_or_assistant started ops :
  Forall (fun r => turn_as_stored r
                   /\ msg_role (context_message r) = Chat.role r)
         (chats (run (init_db started) ops)).
Proof.
  assert (Hall : forall d, Forall turn_as_stored (chats d) ->
                            Forall turn_as_stored (chats (run d ops))).
  { unfold run. induction ops as [|op ops IH]; simpl; intros d Hd;
      [exact Hd|]. apply IH. now apply step_keeps_turns_as_stored. }
  eapply Forall_impl; [|apply Hall; constructor].
  intros r Hrole. split; [exact Hrole|].
  unfold context_message. simpl. destruct Hrole as [-> | ->]; reflexivity.
Qed.

(** X18. From a fresh database, after any operations, every patient row
    has a name that is not empty and has no white space at either end. *)
Theorem stored_patients_have_a_trimmed_name started ops :
  Forall patient_as_stored (patients (run (init_db started) ops)).
Proof.
  assert (Hall : forall d, Forall patient_as_stored (patients d) ->
                            Forall patient_as_stored (patients (run d ops))).
  { unfold run. induction ops as [|op ops IH]; simpl; intros d Hd;
      [exact Hd|]. apply IH. now apply step_keeps_patients_as_stored. }
  apply Hall. constructor.
Qed.

End Routes.

(** ** The theorems at concrete requests *)

(** An engine that keeps a text as text, to evaluate the routes with: no
    request below stores a text in a column of INTEGER affinity. *)
Definition keeps_text : string -> Sqlite.sqlval := Sqlite.Text.

Definition jane_row : Patient.row :=
  Patient.mk 1 "Jane Doe" Sqlite.Null None None 0.

Definition headache : Py.json := send_body 1 "  I have a headache ".

Definition after_headache : outcome :=
  api_send_message keeps_text with_key
    (answering (Py.JStr "Try resting and hydration.")) (clinic keeps_text)
    headache 2 1.

Definition after_thanks : outcome :=
  api_send_message keeps_text no_key timing_out (stored after_headache)
    (send_body 1 "Thanks") 5 0.

Lemma invalid_input_iff_witness :
  let body := Py.JObj [("patient_id", Py.JInt 0); ("message", Py.JStr " hi ")] in
  request_fields body = Py.Return (Py.JInt 0, "hi")
  /\ (response (api_send_message keeps_text with_key timing_out
                  (clinic keeps_text) body 1 1) = InvalidInput
      <-> falsy (Py.JInt 0) \/ "hi" = "")
  /\ (response (api_send_message keeps_text with_key timing_out
                  (clinic keeps_text) body 1 1) = InvalidInput
      -> stored (api_send_message keeps_text with_key timing_out
                   (clinic keeps_text) body 1 1) = clinic keeps_text
         /\ posted (api_send_message keeps_text with_key timing_out
                      (clinic keeps_text) body 1 1) = []).
Proof.
  cbv zeta. split; [reflexivity|].
  apply (invalid_input_iff keeps_text). reflexivity.
Defined.

(** The two ways the description of the 400 answer departs from the route.
    A patient identifier 0 with a message that is not blank is answered
    400, though the identifier is there and is not empty; and a body with
    no patient identifier whose message is the number 5 is not answered
    400: reading its message raises and the answer is 500. *)
Lemma invalid_input_iff_counterexample :
  (response (api_send_message keeps_text with_key timing_out
               (clinic keeps_text)
               (Py.JObj [("patient_id", Py.JInt 0); ("message", Py.JStr "hi")])
               1 1) = InvalidInput
   /\ described_missing_or_empty (Py.JInt 0) = false
   /\ String.eqb (Py.strip "hi") "" = false)
  /\ (Py.lookup "patient_id" [("message", Py.JInt 5)] = None
      /\ described_missing_or_empty Py.JNull = true
      /\ response (api_send_message keeps_text with_key timing_out
                     (clinic keeps_text) (Py.JObj [("message", Py.JInt 5)])
                     1 1)
         = InternalServerError (Py.no_attribute (Py.JInt 5) "strip")).
Proof.
  split; [split; [reflexivity|split; reflexivity]|].
  split; [reflexivity|]. split; reflexivity.
Qed.

Lemma conversation_stores_two_turns_each_witness :
  chronological (clinic keeps_text)
  /\ fetch_patient (clinic keeps_text) 1 = Some jane_row
  /\ conversation keeps_text 1 (clinic keeps_text)
       [("I have a headache", Py.JStr "Try resting and hydration.");
        ("Thanks", Py.JStr key_missing)]
       (stored after_thanks)
  /\ exists rows history,
       chats (stored after_thanks) = (chats (clinic keeps_text) ++ rows)%list
       /\ List.length rows = 4%nat
       /\ map role_content rows
          = [("user", Some "I have a headache");
             ("assistant", Some "Try resting and hydration.");
             ("user", Some "Thanks");
             ("assistant", Some key_missing)]
       /\ turns 1 (stored after_thanks)
          = (turns 1 (clinic keeps_text) ++ rows)%list
       /\ chat (stored after_thanks) 1 = ChatPage jane_row history
       /\ map (fun h => (h_role h, h_content h)) history
          = [("user", Some "I have a headache");
             ("assistant", Some "Try resting and hydration.");
             ("user", Some "Thanks");
             ("assistant", Some key_missing)]
       /\ map h_created_at history
          = map Chat.created_at (turns 1 (clinic keeps_text) ++ rows)
       /\ StronglySorted le (map h_created_at history).
Proof.
  assert (Hchron : chronological (clinic keeps_text)).
  { apply chronological_login, chronological_init. }
  assert (Hconv : conversation keeps_text 1 (clinic keeps_text)
                    [("I have a headache", Py.JStr "Try resting and hydration.");
                     ("Thanks", Py.JStr key_missing)]
                    (stored after_thanks)).
  { eapply (conversation_send keeps_text 1 _ with_key
              (answering (Py.JStr "Try resting and hydration.")) headache 2 1);
      [reflexivity | reflexivity | reflexivity |].
    eapply (conversation_send keeps_text 1 _ no_key timing_out
              (send_body 1 "Thanks") 5 0);
      [reflexivity | reflexivity | reflexivity |].
    apply conversation_over. }
  split; [exact Hchron|]. split; [reflexivity|]. split; [exact Hconv|].
  exact (conversation_stores_two_turns_each keeps_text 1 (clinic keeps_text)
           _ _ jane_row Hchron eq_refl Hconv).
Defined.





Lemma blank_name_creates_nothing_witness :
  Py.strip (form_get [("name", "   "); ("age", "41")] "name" "") = ""
  /\ login keeps_text (clinic keeps_text) 3 POST
       [("name", "   "); ("age", "41")]
     = (clinic keeps_text, LoginPage (Some "Name is required")).
Proof.
  split; [reflexivity|].
  apply (blank_name_creates_nothing keeps_text). reflexivity.
Defined.

(** ** Further properties at concrete requests *)

Definition ann : form := [("name", "  Ann Lee "); ("phone", "555 0101")].

Definition ann_row : Patient.row :=
  Patient.mk 2 "Ann Lee" Sqlite.Null None (Some "555 0101") 7.

Definition headache_saved : database :=
  insert_chat keeps_text (clinic keeps_text) 2 (Sqlite.BInt 1) "user"
    (Sqlite.BText "I have a headache").

Definition headache_msgs : list message :=
  [system_msg; mkMessage "user" (Some "I have a headache");
   mkMessage "user" (Some "I have a headache")].

Definition timed_out : Py.exn := Py.mkExn Py.RequestException "read timed out".

Lemma login_creates_patient_and_dashboard_shows_it_witness :
  let d := run keeps_text (init_db 0) [CreatePatient 0 jane] in
  Py.strip (form_get ann "name" "") <> ""
  /\ login keeps_text d 7 POST ann
     = (mkDb (patients d ++ [ann_row]) (chats d) 2 (chats_seq d) 7,
        RedirectDashboard 2)
  /\ dashboard (fst (login keeps_text d 7 POST ann)) 2 = DashboardPage ann_row.
Proof.
  cbv zeta.
  assert (Hname : Py.strip (form_get ann "name" "") <> "") by discriminate.
  split; [exact Hname|].
  destruct (login_creates_patient_and_dashboard_shows_it keeps_text 0
              [CreatePatient 0 jane] 7 ann Hname)
    as [row [Hlogin [_ [_ [_ Hdash]]]]].
  assert (Hrow : row = ann_row).
  { pose proof Hlogin as Heq. vm_compute in Heq. injection Heq as Hrow _.
    symmetry. exact Hrow. }
  subst row. split; [exact Hlogin|exact Hdash].
Defined.

Lemma chat_history_is_the_turns_of_the_patient_witness :
  fetch_patient (stored after_thanks) 1 = Some jane_row
  /\ exists history,
       chat (stored after_thanks) 1 = ChatPage jane_row history
       /\ Permutation history
            (map history_row (turns 1 (stored after_thanks)))
       /\ (forall h, In h history <->
                     exists r, In r (chats (stored after_thanks))
                               /\ Chat.patient_id r = Sqlite.Integer 1
                               /\ h = history_row r)
       /\ StronglySorted (fun a b => (h_created_at a <= h_created_at b)%nat)
                         history.
Proof.
  split; [reflexivity|].
  apply (chat_history_is_the_turns_of_the_patient (stored after_thanks) 1).
  reflexivity.
Defined.

Lemma message_list_is_bounded_witness :
  receive keeps_text (clinic keeps_text) headache 2
  = Py.Return (Accepted (Sqlite.BInt 1) "I have a headache" headache_saved
                        headache_msgs)
  /\ exists prior,
       headache_msgs
       = (system_msg :: prior
            ++ [mkMessage "user" (Some "I have a headache")])%list
       /\ (List.length prior <= 40)%nat
       /\ (List.length headache_msgs <= 42)%nat
       /\ Forall (fun x => msg_role x = "user" \/ msg_role x = "assistant")
                 prior.
Proof.
  split; [reflexivity|].
  apply (message_list_is_bounded keeps_text (clinic keeps_text) headache 2
           (Sqlite.BInt 1) "I have a headache" headache_saved).
  reflexivity.
Defined.

Lemma message_list_holds_own_turns_only_witness :
  receive keeps_text (clinic keeps_text) headache 2
  = Py.Return (Accepted (Sqlite.BInt 1) "I have a headache" headache_saved
                        headache_msgs)
  /\ exists rows,
       headache_msgs = assemble rows "I have a headache"
       /\ Forall (fun r => In r (chats headache_saved)
                           /\ Chat.patient_id r = Sqlite.Integer 1) rows.
Proof.
  split; [reflexivity|].
  apply (message_list_holds_own_turns_only keeps_text (clinic keeps_text)
           headache 2 (Sqlite.BInt 1) "I have a headache" headache_saved).
  reflexivity.
Defined.

Lemma unaccepted_request_leaves_no_trace_witness :
  let body := Py.JObj [("patient_id", Py.JInt 1); ("message", Py.JInt 5)] in
  let out := api_send_message keeps_text with_key timing_out
               (clinic keeps_text) body 1 1 in
  accepted body = None
  /\ stored out = clinic keeps_text
  /\ posted out = []
  /\ forall reply, response out <> Reply reply.
Proof.
  cbv zeta. split; [reflexivity|].
  apply (unaccepted_request_leaves_no_trace keeps_text). reflexivity.
Defined.

Lemma user_turn_is_saved_before_the_reply_witness :
  let out := api_send_message keeps_text with_key
               (answering (Py.JArr [Py.JStr "rest"])) (clinic keeps_text)
               headache 2 1 in
  accepted headache = Some (Sqlite.BInt 1, "I have a headache")
  /\ response out <> InvalidInput
  /\ (forall ex, response out = InternalServerError ex ->
                 stored out = headache_saved)
  /\ (forall reply, response out = Reply reply ->
        exists b, Sqlite.bind_param 2 reply = Py.Return b
                  /\ stored out
                     = insert_chat keeps_text headache_saved 1
                         (Sqlite.BInt 1) "assistant" b).
Proof.
  cbv zeta. split; [reflexivity|].
  apply (user_turn_is_saved_before_the_reply keeps_text with_key
           (answering (Py.JArr [Py.JStr "rest"])) (clinic keeps_text)
           headache 2 1 (Sqlite.BInt 1) "I have a headache").
  reflexivity.
Defined.

Lemma accepted_message_is_trimmed_witness :
  accepted headache = Some (Sqlite.BInt 1, "I have a headache")
  /\ "I have a headache" <> ""
  /\ Py.strip "I have a headache" = "I have a headache".
Proof.
  split; [reflexivity|].
  apply (accepted_message_is_trimmed headache (Sqlite.BInt 1)). reflexivity.
Defined.

Lemma reply_is_never_empty_witness :
  response after_headache = Reply (Py.JStr "Try resting and hydration.")
  /\ Py.truthy (Py.JStr "Try resting and hydration.") = true.
Proof.
  split; [reflexivity|].
  apply (reply_is_never_empty keeps_text with_key
           (answering (Py.JStr "Try resting and hydration."))
           (clinic keeps_text) headache 2 1).
  reflexivity.
Defined.

Lemma exception_of_the_call_becomes_the_reply_witness :
  accepted headache = Some (Sqlite.BInt 1, "I have a headache")
  /\ GROQ_API_KEY with_key = Some "gsk_test"
  /\ timing_out (build_request "gsk_test" headache_msgs) = Py.Raise timed_out
  /\ api_send_message keeps_text with_key timing_out (clinic keeps_text)
       headache 2 1
     = mkOutcome
         (insert_chat keeps_text headache_saved 1 (Sqlite.BInt 1) "assistant"
            (Sqlite.BText "Sorry, AI service error: read timed out"))
         (Reply (Py.JStr "Sorry, AI service error: read timed out"))
         [build_request "gsk_test" headache_msgs].
Proof.
  split; [reflexivity|]. split; [reflexivity|]. split; [reflexivity|].
  refine (exception_of_the_call_becomes_the_reply keeps_text with_key
            timing_out (clinic keeps_text) headache 2 1 (Sqlite.BInt 1)
            "I have a headache" "gsk_test" timed_out eq_refl eq_refl _
            eq_refl).
  discriminate.
Defined.

